(** * Undergraduate Assistant front end: a shallow embedding

    The development follows the source files of the front end:
    - [JsString]: the JavaScript strings the code manipulates (UTF-16 code
      units, [trim], truthiness, [includes]);
    - [Types]: [types/index.ts];
    - [Form]: [components/UserInfoForm.tsx];
    - [Api]: [services/api.ts], the [ApiService] class;
    - [Display]: [components/ProfessorDisplay.tsx];
    - [App]: [App.tsx], the orchestrating component.

    React state is modelled by explicit state passing: a component is a record
    of its [useState] cells, an event handler is a function from the record
    to the record, and an [async] handler is split at its [await].  A module
    is modelled against the declared types of what it imports: [App] and the
    form receive the settled promises of [apiService] at their TypeScript
    types. *)

From Stdlib Require Import String Ascii.
From stdpp Require Import base decidable option numbers list.

Local Open Scope N_scope.
Set Warnings "-register-all".

(** ** JavaScript strings *)

Module JsString.

(** A JavaScript string is a finite sequence of 16-bit code units. *)
Definition code_unit : Type := N.
Definition jsstring : Type := list code_unit.

(** An ASCII literal of the source, as a sequence of code units. *)
Fixpoint js (s : string) : jsstring :=
  match s with
  | EmptyString => []
  | String a r => N_of_ascii a :: js r
  end.

(** ECMAScript [WhiteSpace] and [LineTerminator] code points, the ones
    [String.prototype.trim] strips.  All of them lie in the basic plane, so
    the test is exact on code units. *)
Definition is_white_space (c : code_unit) : bool :=
  (c =? 0x9) || (c =? 0xA) || (c =? 0xB) || (c =? 0xC) || (c =? 0xD)
  || (c =? 0x20) || (c =? 0xA0) || (c =? 0x1680)
  || ((0x2000 <=? c) && (c <=? 0x200A))
  || (c =? 0x2028) || (c =? 0x2029) || (c =? 0x202F) || (c =? 0x205F)
  || (c =? 0x3000) || (c =? 0xFEFF).

Fixpoint trimStart (s : jsstring) : jsstring :=
  match s with
  | [] => []
  | c :: r => if is_white_space c then trimStart r else s
  end.

Definition trimEnd (s : jsstring) : jsstring :=
  reverse (trimStart (reverse s)).

(** [s.trim()] *)
Definition trim (s : jsstring) : jsstring := trimEnd (trimStart s).

(** Truthiness of a string value: every string but the empty one. *)
Definition truthy (s : jsstring) : bool :=
  match s with [] => false | _ :: _ => true end.

(** [a || b] on strings. *)
Definition or_else (a b : jsstring) : jsstring :=
  if truthy a then a else b.

Fixpoint startsWith (s p : jsstring) : bool :=
  match p, s with
  | [], _ => true
  | _ :: _, [] => false
  | x :: p', y :: s' => (x =? y) && startsWith s' p'
  end.

(** [s.includes(p)]: [p] occurs in [s] as a contiguous run of code units. *)
Fixpoint includes (s p : jsstring) : bool :=
  startsWith s p
  || match s with
     | [] => false
     | _ :: s' => includes s' p
     end.

(** Decimal digits of a non-negative integer, as a template literal
    [`${n}`] prints it. *)
Fixpoint digits (d : Decimal.uint) : jsstring :=
  match d with
  | Decimal.Nil => []
  | Decimal.D0 r => 48 :: digits r
  | Decimal.D1 r => 49 :: digits r
  | Decimal.D2 r => 50 :: digits r
  | Decimal.D3 r => 51 :: digits r
  | Decimal.D4 r => 52 :: digits r
  | Decimal.D5 r => 53 :: digits r
  | Decimal.D6 r => 54 :: digits r
  | Decimal.D7 r => 55 :: digits r
  | Decimal.D8 r => 56 :: digits r
  | Decimal.D9 r => 57 :: digits r
  end.

Definition of_N (n : N) : jsstring := digits (N.to_uint n).

End JsString.

(** ** [types/index.ts] *)

Module Types.
Import JsString.

Record UserInfo := {
  name : jsstring;
  major : jsstring;
  research_interests : list jsstring;
  skills : list jsstring
}.

(** Optional members ([email?: string]) are [None] when absent. *)
Record ProfessorInfo := {
  prof_name : jsstring;
  title : jsstring;
  position : jsstring;
  prof_research_interests : list jsstring;
  location : jsstring;
  email : option jsstring;
  phone : option jsstring;
  personal_website : option jsstring;
  google_scholar : option jsstring
}.

Record ProfessorRecommendationResponse := {
  recommendations : list ProfessorInfo;
  match_count : Z
}.

Record ResearchAreasResponse := {
  research_areas : list jsstring;
  count : Z
}.

(** What a [catch] clause can receive: an instance of [Error] (or of one of
    its subclasses) with its [message], or any other thrown value. *)
Inductive Thrown :=
| ErrorInstance (message : jsstring)
| NotAnError.

(** A settled promise. *)
Inductive Settled (A : Type) :=
| Fulfilled (v : A)
| Rejected (e : Thrown).
Global Arguments Fulfilled {A} v.
Global Arguments Rejected {A} e.

(** [xs.includes(x)] on an array of strings. *)
Fixpoint array_includes (xs : list jsstring) (x : jsstring) : bool :=
  match xs with
  | [] => false
  | y :: r => bool_decide (y = x) || array_includes r x
  end.

End Types.

(** ** [components/UserInfoForm.tsx] *)

Module Form.
Import JsString Types.

(** The [useState] cells of the component. *)
Record FormState := {
  formData : UserInfo;
  currentInterest : jsstring;
  currentSkill : jsstring;
  availableResearchAreas : list jsstring;
  filteredResearchAreas : list jsstring;
  showResearchDropdown : bool;
  loadingResearchAreas : bool
}.

Definition initial : FormState := {|
  formData := {| name := []; major := []; research_interests := []; skills := [] |};
  currentInterest := [];
  currentSkill := [];
  availableResearchAreas := [];
  filteredResearchAreas := [];
  showResearchDropdown := false;
  loadingResearchAreas := true
|}.

(** *** State setters *)

Definition setFormData (f : UserInfo → UserInfo) (st : FormState) : FormState :=
  {| formData := f (formData st);
     currentInterest := currentInterest st;
     currentSkill := currentSkill st;
     availableResearchAreas := availableResearchAreas st;
     filteredResearchAreas := filteredResearchAreas st;
     showResearchDropdown := showResearchDropdown st;
     loadingResearchAreas := loadingResearchAreas st |}.

Definition setCurrentInterest (v : jsstring) (st : FormState) : FormState :=
  {| formData := formData st;
     currentInterest := v;
     currentSkill := currentSkill st;
     availableResearchAreas := availableResearchAreas st;
     filteredResearchAreas := filteredResearchAreas st;
     showResearchDropdown := showResearchDropdown st;
     loadingResearchAreas := loadingResearchAreas st |}.

Definition setCurrentSkill (v : jsstring) (st : FormState) : FormState :=
  {| formData := formData st;
     currentInterest := currentInterest st;
     currentSkill := v;
     availableResearchAreas := availableResearchAreas st;
     filteredResearchAreas := filteredResearchAreas st;
     showResearchDropdown := showResearchDropdown st;
     loadingResearchAreas := loadingResearchAreas st |}.

Definition setAvailableResearchAreas (v : list jsstring) (st : FormState) : FormState :=
  {| formData := formData st;
     currentInterest := currentInterest st;
     currentSkill := currentSkill st;
     availableResearchAreas := v;
     filteredResearchAreas := filteredResearchAreas st;
     showResearchDropdown := showResearchDropdown st;
     loadingResearchAreas := loadingResearchAreas st |}.

Definition setFilteredResearchAreas (v : list jsstring) (st : FormState) : FormState :=
  {| formData := formData st;
     currentInterest := currentInterest st;
     currentSkill := currentSkill st;
     availableResearchAreas := availableResearchAreas st;
     filteredResearchAreas := v;
     showResearchDropdown := showResearchDropdown st;
     loadingResearchAreas := loadingResearchAreas st |}.

Definition setShowResearchDropdown (v : bool) (st : FormState) : FormState :=
  {| formData := formData st;
     currentInterest := currentInterest st;
     currentSkill := currentSkill st;
     availableResearchAreas := availableResearchAreas st;
     filteredResearchAreas := filteredResearchAreas st;
     showResearchDropdown := v;
     loadingResearchAreas := loadingResearchAreas st |}.

Definition setLoadingResearchAreas (v : bool) (st : FormState) : FormState :=
  {| formData := formData st;
     currentInterest := currentInterest st;
     currentSkill := currentSkill st;
     availableResearchAreas := availableResearchAreas st;
     filteredResearchAreas := filteredResearchAreas st;
     showResearchDropdown := showResearchDropdown st;
     loadingResearchAreas := v |}.

(** [{...prev, research_interests: v}] and its siblings. *)
Definition with_name (v : jsstring) (u : UserInfo) : UserInfo :=
  {| name := v; major := major u;
     research_interests := research_interests u; skills := skills u |}.

Definition with_major (v : jsstring) (u : UserInfo) : UserInfo :=
  {| name := name u; major := v;
     research_interests := research_interests u; skills := skills u |}.

Definition with_research_interests (v : list jsstring) (u : UserInfo) : UserInfo :=
  {| name := name u; major := major u;
     research_interests := v; skills := skills u |}.

Definition with_skills (v : list jsstring) (u : UserInfo) : UserInfo :=
  {| name := name u; major := major u;
     research_interests := research_interests u; skills := v |}.

(** *** The mount effect: [fetchResearchAreas] *)

Definition fallbackAreas : list jsstring := [
  js "Artificial Intelligence";
  js "Machine Learning";
  js "Data Science";
  js "Computer Vision";
  js "Natural Language Processing";
  js "Cybersecurity";
  js "Software Engineering";
  js "Human-Computer Interaction";
  js "Robotics";
  js "Computer Networks"
].

(** What the effect writes to the console. *)
Inductive ConsoleEntry :=
| ConsoleError (label : jsstring) (e : Thrown).

(** The body of [fetchResearchAreas] after [await apiService.getResearchAreas()]
    has settled: the [try] branch, the [catch] branch, then [finally]. *)
Definition fetchResearchAreas (o : Settled ResearchAreasResponse) (st : FormState)
  : FormState * list ConsoleEntry :=
  match o with
  | Fulfilled response =>
      (setLoadingResearchAreas false
         (setFilteredResearchAreas (research_areas response)
            (setAvailableResearchAreas (research_areas response) st)),
       [])
  | Rejected error =>
      (setLoadingResearchAreas false
         (setFilteredResearchAreas fallbackAreas
            (setAvailableResearchAreas fallbackAreas st)),
       [ConsoleError (js "Failed to fetch research areas:") error])
  end.

(** *** Handlers *)

Section WithCaseMapping.

(** [String.prototype.toLowerCase]: the Unicode case mapping of the engine. *)
Variable toLowerCase : jsstring → jsstring.

Definition filterResearchAreas (input : jsstring) (st : FormState) : FormState :=
  if negb (truthy (trim input)) then
    setFilteredResearchAreas (availableResearchAreas st) st
  else
    let filtered :=
      filter (λ area, Is_true (includes (toLowerCase area) (toLowerCase input)))
             (availableResearchAreas st) in
    setFilteredResearchAreas filtered st.

Definition handleResearchInputChange (value : jsstring) (st : FormState) : FormState :=
  setShowResearchDropdown true
    (filterResearchAreas value (setCurrentInterest value st)).

End WithCaseMapping.

(** The two call sites pass ['name'] and ['major']. *)
Inductive TextField := FieldName | FieldMajor.

Definition handleInputChange (field : TextField) (value : jsstring) (st : FormState)
  : FormState :=
  match field with
  | FieldName => setFormData (with_name value) st
  | FieldMajor => setFormData (with_major value) st
  end.

(** [interest || currentInterest]; [None] is the call without argument. *)
Definition interestToAdd (interest : option jsstring) (st : FormState) : jsstring :=
  match interest with
  | Some i => or_else i (currentInterest st)
  | None => currentInterest st
  end.

Definition addResearchInterest (interest : option jsstring) (st : FormState)
  : FormState :=
  let interestToAdd := interestToAdd interest st in
  if truthy (trim interestToAdd)
     && negb (array_includes (research_interests (formData st)) (trim interestToAdd))
  then
    setShowResearchDropdown false
      (setCurrentInterest []
         (setFormData
            (λ prev, with_research_interests
                       (research_interests prev ++ [trim interestToAdd]) prev)
            st))
  else st.

Inductive Key := Enter | Escape | OtherKey.

Definition handleResearchInputKeyPress (key : Key) (st : FormState) : FormState :=
  match key with
  | Enter => addResearchInterest None st
  | Escape => setShowResearchDropdown false st
  | OtherKey => st
  end.

Definition removeResearchInterest (interest : jsstring) (st : FormState) : FormState :=
  setFormData
    (λ prev, with_research_interests
               (filter (λ i, i ≠ interest) (research_interests prev)) prev)
    st.

Definition addSkill (st : FormState) : FormState :=
  if truthy (trim (currentSkill st))
     && negb (array_includes (skills (formData st)) (trim (currentSkill st)))
  then
    setCurrentSkill []
      (setFormData
         (λ prev, with_skills (skills prev ++ [trim (currentSkill st)]) prev)
         st)
  else st.

Definition removeSkill (skill : jsstring) (st : FormState) : FormState :=
  setFormData
    (λ prev, with_skills (filter (λ s, s ≠ skill) (skills prev)) prev)
    st.

(** [handleSubmit]: the calls it makes to the [onSubmit] prop. *)
Definition handleSubmit (st : FormState) : list UserInfo :=
  if truthy (name (formData st)) && truthy (major (formData st))
  then [formData st]
  else [].

Definition isFormValid (st : FormState) : bool :=
  truthy (name (formData st)) && truthy (major (formData st)).

(** [disabled] attributes of the rendered controls. *)
Definition interest_input_disabled (st : FormState) : bool :=
  loadingResearchAreas st.

Definition add_interest_disabled (st : FormState) : bool :=
  negb (truthy (trim (currentInterest st))) || loadingResearchAreas st.

Definition add_skill_disabled (st : FormState) : bool :=
  negb (truthy (trim (currentSkill st))).

Definition submit_disabled (loading : bool) (st : FormState) : bool :=
  negb (isFormValid st) || loading.

(** *** Everything that can happen to a mounted form *)

Inductive FormEvent :=
| ResearchAreasSettled (o : Settled ResearchAreasResponse)
| MouseDownOutside
| InputChange (field : TextField) (value : jsstring)
| ResearchInputChange (value : jsstring)
| ResearchInputKeyPress (key : Key)
| ResearchInputFocus
| ClickAddInterest
| ClickSuggestion (area : jsstring)
| ClickRemoveInterest (interest : jsstring)
| SkillInputChange (value : jsstring)
| SkillInputKeyPress (key : Key)
| ClickAddSkill
| ClickRemoveSkill (skill : jsstring)
| SubmitForm.

Definition handle (toLowerCase : jsstring → jsstring) (ev : FormEvent) (st : FormState)
  : FormState :=
  match ev with
  | ResearchAreasSettled o => fst (fetchResearchAreas o st)
  | MouseDownOutside => setShowResearchDropdown false st
  | InputChange field value => handleInputChange field value st
  | ResearchInputChange value => handleResearchInputChange toLowerCase value st
  | ResearchInputKeyPress key => handleResearchInputKeyPress key st
  | ResearchInputFocus => setShowResearchDropdown true st
  | ClickAddInterest => addResearchInterest None st
  | ClickSuggestion area => addResearchInterest (Some area) st
  | ClickRemoveInterest interest => removeResearchInterest interest st
  | SkillInputChange value => setCurrentSkill value st
  | SkillInputKeyPress Enter => addSkill st
  | SkillInputKeyPress _ => st
  | ClickAddSkill => addSkill st
  | ClickRemoveSkill skill => removeSkill skill st
  | SubmitForm => st
  end.

(** The state after a sequence of events, oldest first. *)
Definition run (toLowerCase : jsstring → jsstring) (evs : list FormEvent)
  (st : FormState) : FormState :=
  foldl (λ s ev, handle toLowerCase ev s) st evs.

End Form.

(** ** [services/api.ts] *)

Module Api.
Import JsString Types.

(** A parsed JSON text.  A number is carried by the string [Number::toString]
    gives for it: the client never computes with the numbers of a body.  The
    members of an object are its own properties, keys distinct. *)
Inductive JSON :=
| JNull
| JBool (b : bool)
| JNumber (repr : jsstring)
| JString (s : jsstring)
| JArray (items : list JSON)
| JObject (members : list (jsstring * JSON)).

(** The [Response] of the Fetch API, as far as the client reads it:
    [response.status] and the promise [response.json()] returns (rejected when
    the body is not a JSON text). *)
Record Response := {
  status : N;
  json : Settled JSON
}.

(** [response.ok]: the status is in the range 200-299. *)
Definition ok (response : Response) : bool :=
  (200 <=? status response) && (status response <=? 299).

Fixpoint lookup_member (key : jsstring) (members : list (jsstring * JSON))
  : option JSON :=
  match members with
  | [] => None
  | (k, v) :: r => if bool_decide (k = key) then Some v else lookup_member key r
  end.

(** The outcome of evaluating an expression that may throw. *)
Inductive Completion (A : Type) :=
| Normal (v : A)
| Throw (e : Thrown).
Global Arguments Normal {A} v.
Global Arguments Throw {A} e.

(** [ToString] on a value that came out of [JSON.parse]; [None] when the
    conversion throws a [TypeError].  An array is joined with commas, [null]
    elements left empty.  An object is converted by the [toString] it finds:
    the inherited one gives "[object Object]", an own member of that name is
    no function (and neither [valueOf] helps), so the conversion throws. *)
Fixpoint ToString (v : JSON) : option jsstring :=
  match v with
  | JNull => Some (js "null")
  | JBool true => Some (js "true")
  | JBool false => Some (js "false")
  | JNumber repr => Some repr
  | JString s => Some s
  | JArray items =>
      (fix join (l : list JSON) : option jsstring :=
         match l with
         | [] => Some []
         | x :: r =>
             match match x with JNull => Some [] | _ => ToString x end with
             | None => None
             | Some element =>
                 match r with
                 | [] => Some element
                 | _ :: _ =>
                     match join r with
                     | Some rest => Some (element ++ js "," ++ rest)
                     | None => None
                     end
                 end
             end
         end) items
  | JObject members =>
      match lookup_member (js "toString") members with
      | Some _ => None
      | None => Some (js "[object Object]")
      end
  end.

(** A [number] argument, carried like the numbers of a body by the string a
    template literal prints for it: the client only prints its numbers. *)
Definition Number : Type := jsstring.

Record Request := {
  method : jsstring;
  url : jsstring;
  headers : list (jsstring * jsstring);
  body : option jsstring
}.

Definition UserInfo_toJSON (u : UserInfo) : JSON :=
  JObject [
    (js "name", JString (name u));
    (js "major", JString (major u));
    (js "research_interests", JArray (JString <$> research_interests u));
    (js "skills", JArray (JString <$> skills u))
  ].

Definition truthy_opt (s : option jsstring) : bool :=
  match s with
  | Some v => truthy v
  | None => false
  end.

Record SearchParams := {
  research_area : option jsstring;
  search_location : option jsstring;
  search_name : option jsstring
}.

Section WithEngine.

(** The environment of the module: the build-time variable, the network, and
    the engine's serialisers and its messages for a property read on [null]
    and for a value that cannot be converted to a primitive. *)
Variable REACT_APP_API_URL : option jsstring.
Variable fetch : Request → Settled Response.
Variable JSON_stringify : JSON → jsstring.
Variable URLSearchParams_toString : list (jsstring * jsstring) → jsstring.
Variable null_read_message : jsstring.
Variable to_primitive_message : jsstring.

Definition API_BASE_URL : jsstring :=
  match REACT_APP_API_URL with
  | Some u => or_else u (js "http://127.0.0.1:8000")
  | None => js "http://127.0.0.1:8000"
  end.

(** [errorData.detail] *)
Definition read_detail (errorData : JSON) : Completion (option JSON) :=
  match errorData with
  | JNull => Throw (ErrorInstance null_read_message)
  | JObject members => Normal (lookup_member (js "detail") members)
  | _ => Normal None
  end.

(** [new Error(message)]: [None] is [undefined], which leaves the message
    empty; any other value is converted with [ToString], which may throw. *)
Definition new_Error (message : option JSON) : Completion Thrown :=
  match message with
  | None => Normal (ErrorInstance [])
  | Some v =>
      match ToString v with
      | Some m => Normal (ErrorInstance m)
      | None => Throw (ErrorInstance to_primitive_message)
      end
  end.

Definition handleResponse (response : Response) : Settled JSON :=
  if negb (ok response) then
    let errorData :=
      match json response with
      | Fulfilled v => v
      | Rejected _ =>
          JObject [(js "detail",
                    JString (js "HTTP error! status: " ++ of_N (status response)))]
      end in
    match read_detail errorData with
    | Normal detail =>
        match new_Error detail with
        | Normal error => Rejected error
        | Throw e => Rejected e
        end
    | Throw e => Rejected e
    end
  else json response.

(** [await fetch(...)] followed by [this.handleResponse(response)]. *)
Definition send (request : Request) : Settled JSON :=
  match fetch request with
  | Fulfilled response => handleResponse response
  | Rejected e => Rejected e
  end.

Definition json_headers : list (jsstring * jsstring) :=
  [(js "Content-Type", js "application/json")].

Definition createUser (userInfo : UserInfo) : Settled JSON :=
  send {| method := js "POST";
          url := API_BASE_URL ++ js "/user_info";
          headers := json_headers;
          body := Some (JSON_stringify (UserInfo_toJSON userInfo)) |}.

Definition getUser (userId : Number) : Settled JSON :=
  send {| method := js "GET";
          url := API_BASE_URL ++ js "/user_info/" ++ userId;
          headers := [];
          body := None |}.

Definition getProfessorRecommendations (userInfo : UserInfo) : Settled JSON :=
  let requestData := JObject [(js "user_info", UserInfo_toJSON userInfo)] in
  send {| method := js "POST";
          url := API_BASE_URL ++ js "/prof_info";
          headers := json_headers;
          body := Some (JSON_stringify requestData) |}.

Definition searchProfessors (params : SearchParams) : Settled JSON :=
  let append (key : jsstring) (value : option jsstring) :=
    match value with
    | Some v => if truthy v then [(key, v)] else []
    | None => []
    end in
  let searchParams :=
    append (js "research_area") (research_area params)
    ++ append (js "location") (search_location params)
    ++ append (js "name") (search_name params) in
  send {| method := js "GET";
          url := API_BASE_URL ++ js "/professors/search?"
                 ++ URLSearchParams_toString searchParams;
          headers := [];
          body := None |}.

(** [limit] and [offset] default to 50 and 0 when the argument is left out. *)
Definition getAllProfessors (limit offset : option Number) : Settled JSON :=
  send {| method := js "GET";
          url := API_BASE_URL ++ js "/professors?limit=" ++ default (js "50") limit
                 ++ js "&offset=" ++ default (js "0") offset;
          headers := [];
          body := None |}.

Definition healthCheck : Settled JSON :=
  send {| method := js "GET";
          url := API_BASE_URL ++ js "/";
          headers := [];
          body := None |}.

Definition getResearchAreas : Settled JSON :=
  send {| method := js "GET";
          url := API_BASE_URL ++ js "/research-areas";
          headers := [];
          body := None |}.

(** The public methods of [apiService], with their arguments. *)
Inductive Call :=
| CreateUser (userInfo : UserInfo)
| GetUser (userId : Number)
| GetProfessorRecommendations (userInfo : UserInfo)
| SearchProfessors (params : SearchParams)
| GetAllProfessors (limit offset : option Number)
| HealthCheck
| GetResearchAreas.

Definition perform (c : Call) : Settled JSON :=
  match c with
  | CreateUser userInfo => createUser userInfo
  | GetUser userId => getUser userId
  | GetProfessorRecommendations userInfo => getProfessorRecommendations userInfo
  | SearchProfessors params => searchProfessors params
  | GetAllProfessors limit offset => getAllProfessors limit offset
  | HealthCheck => healthCheck
  | GetResearchAreas => getResearchAreas
  end.

End WithEngine.

End Api.

(** ** [components/ProfessorDisplay.tsx] *)

Module Display.
Import JsString Types.

Section WithHandler.

(** What the parent binds to [onBack]. *)
Variable Handler : Type.

Record Props := {
  professors : list ProfessorInfo;
  loading : bool;
  error : option jsstring;
  onBack : option Handler
}.

(** A rendered [professor-card]. *)
Record Card := {
  card_name : jsstring;
  card_title : jsstring;
  card_position : jsstring;
  interest_tags : list jsstring;
  more_tag : option jsstring;
  card_location : jsstring;
  email_link : option (jsstring * jsstring);
  phone_link : option (jsstring * jsstring);
  website_link : option jsstring;
  scholar_link : option jsstring;
  contact_action : option jsstring;
  profile_action : option jsstring
}.

(** The four returns of the component. *)
Inductive View :=
| LoadingState
| ErrorState (message : jsstring) (button : option Handler)
| NoResults (button : option Handler)
| ResultsGrid (found : nat) (button : option Handler) (cards : list Card).

(** [value && <element/>] on an optional string member. *)
Definition when_truthy {A : Type} (value : option jsstring) (element : jsstring → A)
  : option A :=
  match value with
  | Some v => if truthy v then Some (element v) else None
  | None => None
  end.

Definition render_card (professor : ProfessorInfo) : Card := {|
  card_name := prof_name professor;
  card_title := title professor;
  card_position := position professor;
  interest_tags := take 5 (prof_research_interests professor);
  more_tag :=
    if (5 <? length (prof_research_interests professor))%nat then
      Some (js "+"
            ++ of_N (N.of_nat (length (prof_research_interests professor) - 5))
            ++ js " more")
    else None;
  card_location := location professor;
  email_link := when_truthy (email professor) (λ e, (js "mailto:" ++ e, e));
  phone_link := when_truthy (phone professor) (λ p, (js "tel:" ++ p, p));
  website_link := when_truthy (personal_website professor) (λ w, w);
  scholar_link := when_truthy (google_scholar professor) (λ g, g);
  contact_action :=
    when_truthy (email professor)
      (λ e, js "mailto:" ++ e ++ js "?subject=Research Opportunity Inquiry");
  profile_action := when_truthy (personal_website professor) (λ w, w)
|}.

Definition ProfessorDisplay (props : Props) : View :=
  if loading props then LoadingState
  else
    match when_truthy (error props) (λ e, e) with
    | Some message => ErrorState message (onBack props)
    | None =>
        if (length (professors props) =? 0)%nat then NoResults (onBack props)
        else
          ResultsGrid (length (professors props)) (onBack props)
                      (render_card <$> professors props)
    end.

(** The cards on screen. *)
Definition cards_of (v : View) : list Card :=
  match v with
  | ResultsGrid _ _ cards => cards
  | _ => []
  end.

(** The handler behind the button on screen, if there is a button. *)
Definition button_of (v : View) : option Handler :=
  match v with
  | LoadingState => None
  | ErrorState _ button => button
  | NoResults button => button
  | ResultsGrid _ button _ => button
  end.

Definition is_no_results (v : View) : bool :=
  match v with
  | NoResults _ => true
  | _ => false
  end.

End WithHandler.

Global Arguments LoadingState {Handler}.
Global Arguments ErrorState {Handler} message button.
Global Arguments NoResults {Handler} button.
Global Arguments ResultsGrid {Handler} found button cards.
Global Arguments ProfessorDisplay {Handler} props.
Global Arguments cards_of {Handler} v.
Global Arguments button_of {Handler} v.
Global Arguments is_no_results {Handler} v.

End Display.

(** ** [App.tsx] *)

Module App.
Import JsString Types.

(** [type AppState = 'form' | 'loading' | 'results' | 'error'] *)
Module AppState.
Inductive t := form | loading | results | error.
End AppState.
Abbreviation AppState := AppState.t.

(** The [useState] cells of [App]. *)
Record Cells := {
  state : AppState;
  professors : list ProfessorInfo;
  error : jsstring;
  userInfo : option UserInfo
}.

Definition initial : Cells := {|
  state := AppState.form;
  professors := [];
  error := [];
  userInfo := None
|}.

Definition setState (v : AppState) (c : Cells) : Cells :=
  {| state := v; professors := professors c;
     error := error c; userInfo := userInfo c |}.

Definition setProfessors (v : list ProfessorInfo) (c : Cells) : Cells :=
  {| state := state c; professors := v;
     error := error c; userInfo := userInfo c |}.

Definition setError (v : jsstring) (c : Cells) : Cells :=
  {| state := state c; professors := professors c;
     error := v; userInfo := userInfo c |}.

Definition setUserInfo (v : option UserInfo) (c : Cells) : Cells :=
  {| state := state c; professors := professors c;
     error := error c; userInfo := v |}.

(** A call to [apiService.getProfessorRecommendations] that has been issued. *)
Inductive Request :=
| getProfessorRecommendations (userInfo : UserInfo).

(** [handleUserSubmit] up to its [await]: the three state updates and the
    request. *)
Definition handleUserSubmit (userData : UserInfo) (c : Cells) : Cells * list Request :=
  (setUserInfo (Some userData) (setError [] (setState AppState.loading c)),
   [getProfessorRecommendations userData]).

(** [handleUserSubmit] from its [await] on, once the promise has settled. *)
Definition handleUserSubmit_settled
  (o : Settled ProfessorRecommendationResponse) (c : Cells) : Cells :=
  match o with
  | Fulfilled response =>
      if (length (recommendations response) =? 0)%nat then
        setState AppState.results (setProfessors [] c)
      else
        setState AppState.results (setProfessors (recommendations response) c)
  | Rejected err =>
      setState AppState.error
        (setError
           match err with
           | ErrorInstance message => message
           | NotAnError => js "An unexpected error occurred"
           end c)
  end.

Definition handleBack (c : Cells) : Cells * list Request :=
  (setProfessors [] (setError [] (setState AppState.form c)), []).

Definition handleRetry (c : Cells) : Cells * list Request :=
  match userInfo c with
  | Some u => handleUserSubmit u c
  | None => (setState AppState.form c, [])
  end.

(** The handlers [App] passes as [onBack]. *)
Inductive Handler := HandleBack | HandleRetry.

Definition invoke (h : Handler) : Cells → Cells * list Request :=
  match h with
  | HandleBack => handleBack
  | HandleRetry => handleRetry
  end.

(** What [App] puts in [<main>]. *)
Inductive Screen :=
| UserInfoForm
| ProfessorDisplay (v : Display.View Handler).

Definition render (c : Cells) : Screen :=
  match state c with
  | AppState.form => UserInfoForm
  | AppState.loading =>
      ProfessorDisplay (Display.ProfessorDisplay
        {| Display.professors := []; Display.loading := true;
           Display.error := None; Display.onBack := Some HandleBack |})
  | AppState.results =>
      ProfessorDisplay (Display.ProfessorDisplay
        {| Display.professors := professors c; Display.loading := false;
           Display.error := None; Display.onBack := Some HandleBack |})
  | AppState.error =>
      ProfessorDisplay (Display.ProfessorDisplay
        {| Display.professors := []; Display.loading := false;
           Display.error := Some (error c);
           Display.onBack := Some HandleRetry |})
  end.

Definition screen_cards (s : Screen) : list (Display.Card) :=
  match s with
  | UserInfoForm => []
  | ProfessorDisplay v => Display.cards_of v
  end.

Definition screen_button (s : Screen) : option Handler :=
  match s with
  | UserInfoForm => None
  | ProfessorDisplay v => Display.button_of v
  end.

Definition screen_no_results (s : Screen) : bool :=
  match s with
  | UserInfoForm => false
  | ProfessorDisplay v => Display.is_no_results v
  end.

(** *** The running page

    The cells together with the requests that are still in flight, oldest
    first. *)
Record Page := {
  cells : Cells;
  in_flight : list Request
}.

Definition start : Page := {| cells := initial; in_flight := [] |}.

(** What drives the page: the mounted form calls [onSubmit], a pending promise
    settles, the user clicks the button of the display. *)
Inductive Event :=
| Submit (userData : UserInfo)
| Settle (o : Settled ProfessorRecommendationResponse)
| ClickButton.

Definition after (p : Page) (r : Cells * list Request) : Page :=
  {| cells := fst r; in_flight := in_flight p ++ snd r |}.

(** One event; [None] when the screen does not offer it. *)
Definition step (p : Page) (e : Event) : option Page :=
  match e with
  | Submit userData =>
      match render (cells p) with
      | UserInfoForm => Some (after p (handleUserSubmit userData (cells p)))
      | ProfessorDisplay _ => None
      end
  | Settle o =>
      match in_flight p with
      | [] => None
      | _ :: rest =>
          Some {| cells := handleUserSubmit_settled o (cells p); in_flight := rest |}
      end
  | ClickButton =>
      match screen_button (render (cells p)) with
      | Some h => Some (after p (invoke h (cells p)))
      | None => None
      end
  end.

Fixpoint steps (p : Page) (es : list Event) : option Page :=
  match es with
  | [] => Some p
  | e :: r =>
      match step p e with
      | Some p' => steps p' r
      | None => None
      end
  end.

(** The pages a session can be in. *)
Inductive reachable : Page → Prop :=
| reachable_start : reachable start
| reachable_step p e p' : reachable p → step p e = Some p' → reachable p'.

End App.

(** ** Specification vocabulary *)

Module Spec.
Import JsString Types.

(** A well-formed tag list: every entry is non-empty and already trimmed, and
    no entry occurs twice. *)
Definition tags_ok (tags : list jsstring) : Prop :=
  Forall (λ s, s ≠ [] ∧ trim s = s) tags ∧ NoDup tags.

(** How many entries of [tags] are equal to [s]. *)
Definition occurrences (s : jsstring) (tags : list jsstring) : nat :=
  length (filter (λ i, i = s) tags).

(** The transition table of the specification: form to loading on submit,
    loading to results on success, loading to error on a thrown error, results
    or error back to form on the button of the display. *)
Definition listed_transition (s : App.AppState) (e : App.Event) (s' : App.AppState)
  : Prop :=
  (s = App.AppState.form ∧ (∃ userData, e = App.Submit userData)
   ∧ s' = App.AppState.loading)
  ∨ (s = App.AppState.loading ∧ (∃ response, e = App.Settle (Fulfilled response))
     ∧ s' = App.AppState.results)
  ∨ (s = App.AppState.loading ∧ (∃ err, e = App.Settle (Rejected err))
     ∧ s' = App.AppState.error)
  ∨ ((s = App.AppState.results ∨ s = App.AppState.error) ∧ e = App.ClickButton
     ∧ s' = App.AppState.form).

(** The transitions [App] makes: as listed, except that the button of the
    error screen leads to loading. *)
Definition app_transition (s : App.AppState) (e : App.Event) (s' : App.AppState)
  : Prop :=
  (s = App.AppState.form ∧ (∃ userData, e = App.Submit userData)
   ∧ s' = App.AppState.loading)
  ∨ (s = App.AppState.loading ∧ (∃ response, e = App.Settle (Fulfilled response))
     ∧ s' = App.AppState.results)
  ∨ (s = App.AppState.loading ∧ (∃ err, e = App.Settle (Rejected err))
     ∧ s' = App.AppState.error)
  ∨ (s = App.AppState.results ∧ e = App.ClickButton ∧ s' = App.AppState.form)
  ∨ (s = App.AppState.error ∧ e = App.ClickButton ∧ s' = App.AppState.loading).

(** What holds of the requests in flight and of the stored [userInfo] in each
    state of a session. *)
Definition page_ok (p : App.Page) : Prop :=
  match App.state (App.cells p) with
  | App.AppState.form | App.AppState.results => App.in_flight p = []
  | App.AppState.loading =>
      ∃ u, App.in_flight p = [App.getProfessorRecommendations u]
           ∧ App.userInfo (App.cells p) = Some u
  | App.AppState.error =>
      App.in_flight p = [] ∧ is_Some (App.userInfo (App.cells p))
  end.

End Spec.

(** ** Sample data *)

Module Sample.
Import JsString Types.

Definition ann : UserInfo := {|
  name := js "Ann";
  major := js "Computer Science";
  research_interests := [js "Machine Learning"];
  skills := []
|}.

Definition professor (who : string) (interests : list jsstring) : ProfessorInfo := {|
  prof_name := js who;
  title := js "Professor";
  position := js "Faculty";
  prof_research_interests := interests;
  location := js "Boston";
  email := None;
  phone := None;
  personal_website := None;
  google_scholar := None
|}.

Definition seven_interests : list jsstring :=
  [js "a"; js "b"; js "c"; js "d"; js "e"; js "f"; js "g"].

Definition two_professors : ProfessorRecommendationResponse := {|
  recommendations :=
    [professor "Ada" [js "Machine Learning"; js "Robotics"];
     professor "Alan" seven_interests];
  match_count := 2
|}.

(** A response that reports no match and still carries a professor. *)
Definition zero_count_one_professor : ProfessorRecommendationResponse := {|
  recommendations := [professor "Ada" [js "Machine Learning"]];
  match_count := 0
|}.

Definition no_professors : ProfessorRecommendationResponse := {|
  recommendations := [];
  match_count := 0
|}.

(** A form holding one interest, with a padded copy of it typed in. *)
Definition typing_duplicate : Form.FormState := {|
  Form.formData := ann;
  Form.currentInterest := js "  Machine Learning ";
  Form.currentSkill := js "   ";
  Form.availableResearchAreas := Form.fallbackAreas;
  Form.filteredResearchAreas := Form.fallbackAreas;
  Form.showResearchDropdown := true;
  Form.loadingResearchAreas := false
|}.

(** [App] after Ann's submission has failed with the message "bad input". *)
Definition failed : App.Page := {|
  App.cells := {| App.state := App.AppState.error;
                  App.professors := [];
                  App.error := js "bad input";
                  App.userInfo := Some ann |};
  App.in_flight := []
|}.

(** [App] after the button of that error screen has been clicked. *)
Definition retried : App.Page := {|
  App.cells := {| App.state := App.AppState.loading;
                  App.professors := [];
                  App.error := [];
                  App.userInfo := Some ann |};
  App.in_flight := [App.getProfessorRecommendations ann]
|}.

(** An error screen with no stored [userInfo]. *)
Definition failed_without_user : App.Page := {|
  App.cells := {| App.state := App.AppState.error;
                  App.professors := [];
                  App.error := js "bad input";
                  App.userInfo := None |};
  App.in_flight := []
|}.

(** A network that answers every request with status 400 and the body
    [{"detail":"bad input"}]. *)
Definition bad_input_network (_ : Api.Request) : Settled Api.Response :=
  Fulfilled {| Api.status := 400;
               Api.json := Fulfilled (Api.JObject
                             [(js "detail", Api.JString (js "bad input"))]) |}.

(** A network that answers every request with status 502 and a body that is
    not JSON. *)
Definition bad_gateway_network (_ : Api.Request) : Settled Api.Response :=
  Fulfilled {| Api.status := 502;
               Api.json := Rejected (ErrorInstance (js "Unexpected token <")) |}.

End Sample.

(** ** The rendered form and the requests of the client *)

Module FormView.
Import JsString Types.

(** The autocomplete dropdown of [UserInfoForm]: the suggestions on screen and
    the count of the closing "... and N more options" line. *)
Record Dropdown := {
  suggestions : list jsstring;
  more_options : option nat
}.

(** [showResearchDropdown && filteredResearchAreas.length > 0 && currentInterest
    && <div className="autocomplete-dropdown">...</div>] *)
Definition dropdown (st : Form.FormState) : option Dropdown :=
  if Form.showResearchDropdown st
     && (0 <? length (Form.filteredResearchAreas st))%nat
     && truthy (Form.currentInterest st)
  then
    Some {| suggestions := take 10 (Form.filteredResearchAreas st);
            more_options :=
              if (10 <? length (Form.filteredResearchAreas st))%nat
              then Some (length (Form.filteredResearchAreas st) - 10)%nat
              else None |}
  else None.

End FormView.

Module ApiRequests.
Import JsString Types.

Section WithEngine.

Variable REACT_APP_API_URL : option jsstring.
Variable JSON_stringify : Api.JSON → jsstring.
Variable URLSearchParams_toString : list (jsstring * jsstring) → jsstring.

(** The [URLSearchParams] that [searchProfessors] fills: one entry for each
    truthy member of [params], in the order of the three [if]s. *)
Definition searchParams (params : Api.SearchParams) : list (jsstring * jsstring) :=
  (if Api.truthy_opt (Api.research_area params)
   then [(js "research_area", default [] (Api.research_area params))] else [])
  ++ (if Api.truthy_opt (Api.search_location params)
      then [(js "location", default [] (Api.search_location params))] else [])
  ++ (if Api.truthy_opt (Api.search_name params)
      then [(js "name", default [] (Api.search_name params))] else []).

(** The argument each method passes to [fetch]. *)
Definition request_of (c : Api.Call) : Api.Request :=
  match c with
  | Api.CreateUser userInfo =>
      {| Api.method := js "POST";
         Api.url := Api.API_BASE_URL REACT_APP_API_URL ++ js "/user_info";
         Api.headers := Api.json_headers;
         Api.body := Some (JSON_stringify (Api.UserInfo_toJSON userInfo)) |}
  | Api.GetUser userId =>
      {| Api.method := js "GET";
         Api.url := Api.API_BASE_URL REACT_APP_API_URL ++ js "/user_info/" ++ userId;
         Api.headers := [];
         Api.body := None |}
  | Api.GetProfessorRecommendations userInfo =>
      {| Api.method := js "POST";
         Api.url := Api.API_BASE_URL REACT_APP_API_URL ++ js "/prof_info";
         Api.headers := Api.json_headers;
         Api.body :=
           Some (JSON_stringify
                   (Api.JObject [(js "user_info", Api.UserInfo_toJSON userInfo)])) |}
  | Api.SearchProfessors params =>
      {| Api.method := js "GET";
         Api.url := Api.API_BASE_URL REACT_APP_API_URL ++ js "/professors/search?"
                    ++ URLSearchParams_toString (searchParams params);
         Api.headers := [];
         Api.body := None |}
  | Api.GetAllProfessors limit offset =>
      {| Api.method := js "GET";
         Api.url := Api.API_BASE_URL REACT_APP_API_URL ++ js "/professors?limit="
                    ++ default (js "50") limit ++ js "&offset="
                    ++ default (js "0") offset;
         Api.headers := [];
         Api.body := None |}
  | Api.HealthCheck =>
      {| Api.method := js "GET";
         Api.url := Api.API_BASE_URL REACT_APP_API_URL ++ js "/";
         Api.headers := [];
         Api.body := None |}
  | Api.GetResearchAreas =>
      {| Api.method := js "GET";
         Api.url := Api.API_BASE_URL REACT_APP_API_URL ++ js "/research-areas";
         Api.headers := [];
         Api.body := None |}
  end.

End WithEngine.

End ApiRequests.

(** ** Traces *)

Module Trace.
Import JsString Types.

(** The mount effect of the form completes with this event. *)
Definition is_settled (ev : Form.FormEvent) : bool :=
  match ev with
  | Form.ResearchAreasSettled _ => true
  | _ => false
  end.

(** The value a text field holds after [evs], starting from [v]: the one of
    the last input event addressed to the field. *)
Fixpoint last_input (field : Form.TextField) (v : jsstring)
  (evs : list Form.FormEvent) : jsstring :=
  match evs with
  | [] => v
  | Form.InputChange f value :: r =>
      match field, f with
      | Form.FieldName, Form.FieldName | Form.FieldMajor, Form.FieldMajor =>
          last_input field value r
      | _, _ => last_input field v r
      end
  | _ :: r => last_input field v r
  end.

(** The data of the last submission among [es], [u] when there is none. *)
Fixpoint last_submit (u : option UserInfo) (es : list App.Event) : option UserInfo :=
  match es with
  | [] => u
  | App.Submit userData :: r => last_submit (Some userData) r
  | _ :: r => last_submit u r
  end.

(** The message [App] stores for a thrown value. *)
Definition shown_message (err : Thrown) : jsstring :=
  match err with
  | ErrorInstance message => message
  | NotAnError => js "An unexpected error occurred"
  end.

End Trace.

(** ** More sample data *)

Module SampleForm.
Import JsString Types.

(** The mount effect fails, then the user types "C". *)
Definition typed_C : list Form.FormEvent :=
  [Form.ResearchAreasSettled (Rejected NotAnError);
   Form.ResearchInputChange (js "C")].

(** The dropdown on screen after [typed_C], with a case mapping that leaves
    its argument alone. *)
Definition dropdown_C : FormView.Dropdown := {|
  FormView.suggestions :=
    [js "Computer Vision"; js "Cybersecurity"; js "Human-Computer Interaction";
     js "Computer Networks"];
  FormView.more_options := None
|}.

(** A user fills in the form without waiting for the research areas. *)
Definition filled_in : list Form.FormEvent :=
  [Form.InputChange Form.FieldName (js "Ann");
   Form.SkillInputChange (js " Python ");
   Form.ClickAddSkill;
   Form.InputChange Form.FieldMajor (js "Data Science");
   Form.InputChange Form.FieldName (js " Ann B ");
   Form.SubmitForm].

(** An answer with status 200 whose body carries a [detail] member. *)
Definition ok_with_detail : Api.Response := {|
  Api.status := 200;
  Api.json := Fulfilled (Api.JObject [(js "detail", Api.JString (js "fine"))])
|}.

(** A validation error in the style of the backend framework: [detail] is an
    array of objects. *)
Definition validation_error : Api.Response := {|
  Api.status := 422;
  Api.json :=
    Fulfilled (Api.JObject
      [(js "detail",
        Api.JArray [Api.JObject [(js "msg", Api.JString (js "field required"))]])])
|}.

(** An error answer whose [detail] is an object with a member named
    [toString]. *)
Definition unprintable_error : Api.Response := {|
  Api.status := 400;
  Api.json :=
    Fulfilled (Api.JObject
      [(js "detail", Api.JObject [(js "toString", Api.JString (js "x"))])])
|}.

(** An error answer whose body is the JSON object without members. *)
Definition empty_error : Api.Response := {|
  Api.status := 500;
  Api.json := Fulfilled (Api.JObject [])
|}.

(** A session: a failed search, a retry that succeeds, back to the form. *)
Definition session : list App.Event :=
  [App.Submit Sample.ann;
   App.Settle (Rejected (ErrorInstance (js "bad input")));
   App.ClickButton;
   App.Settle (Fulfilled Sample.two_professors);
   App.ClickButton].

(** The page at the end of [session]. *)
Definition session_end : App.Page := {|
  App.cells := {| App.state := App.AppState.form;
                  App.professors := [];
                  App.error := [];
                  App.userInfo := Some Sample.ann |};
  App.in_flight := []
|}.

(** A network that gives every request the same answer. *)
Definition answering (response : Api.Response) (_ : Api.Request)
  : Settled Api.Response :=
  Fulfilled response.

End SampleForm.

(** * Properties *)

Import JsString Types.

(** ** Strings *)

Lemma truthy_true (s : jsstring) : truthy s = true ↔ s ≠ [].
Proof. destruct s; simpl; split; congruence. Qed.

Lemma truthy_false (s : jsstring) : truthy s = false ↔ s = [].
Proof. destruct s; simpl; split; congruence. Qed.

Lemma trimStart_head (c : code_unit) (r : jsstring) :
  is_white_space c = false → trimStart (c :: r) = c :: r.
Proof. intros Hc. simpl. by rewrite Hc. Qed.

Lemma trimStart_cases (s : jsstring) :
  trimStart s = [] ∨
  ∃ c r, trimStart s = c :: r ∧ is_white_space c = false.
Proof.
  induction s as [|c r IH]; simpl; [by left|].
  destruct (is_white_space c) eqn:Hc; [exact IH|].
  right. by exists c, r.
Qed.

Lemma trimStart_snoc (s : jsstring) (c : code_unit) :
  is_white_space c = false → trimStart (s ++ [c]) = trimStart s ++ [c].
Proof.
  intros Hc. induction s as [|d r IH]; simpl.
  - by rewrite Hc.
  - destruct (is_white_space d); [exact IH | done].
Qed.

Lemma trimEnd_head (c : code_unit) (r : jsstring) :
  is_white_space c = false → trimEnd (c :: r) = c :: trimEnd r.
Proof.
  intros Hc. unfold trimEnd.
  by rewrite reverse_cons, trimStart_snoc, reverse_snoc.
Qed.

Lemma trimStart_idemp (s : jsstring) : trimStart (trimStart s) = trimStart s.
Proof.
  destruct (trimStart_cases s) as [-> | (c & r & -> & Hc)]; [done|].
  by apply trimStart_head.
Qed.

Lemma trimEnd_idemp (s : jsstring) : trimEnd (trimEnd s) = trimEnd s.
Proof.
  unfold trimEnd. by rewrite reverse_involutive, trimStart_idemp.
Qed.

Lemma trimStart_trim (s : jsstring) : trimStart (trim s) = trim s.
Proof.
  unfold trim.
  destruct (trimStart_cases s) as [-> | (c & r & -> & Hc)]; [done|].
  rewrite (trimEnd_head c r Hc). by apply trimStart_head.
Qed.

(** [trim] is idempotent: a trimmed string is its own trim. *)
Lemma trim_idemp (s : jsstring) : trim (trim s) = trim s.
Proof.
  unfold trim at 1. rewrite trimStart_trim.
  unfold trim. apply trimEnd_idemp.
Qed.

Lemma array_includes_elem_of (xs : list jsstring) (x : jsstring) :
  array_includes xs x = true ↔ x ∈ xs.
Proof.
  induction xs as [|y r IH]; simpl.
  - split; [done | by intros ?%elem_of_nil].
  - rewrite orb_true_iff, bool_decide_eq_true, IH, elem_of_cons.
    split; (intros [H | H]; [left; congruence | by right]).
Qed.

Lemma array_includes_not_elem_of (xs : list jsstring) (x : jsstring) :
  array_includes xs x = false ↔ x ∉ xs.
Proof.
  rewrite <- array_includes_elem_of.
  destruct (array_includes xs x); split; congruence.
Qed.


(** ** The form *)

Lemma FormState_eq (a b : Form.FormState) :
  Form.formData a = Form.formData b →
  Form.currentInterest a = Form.currentInterest b →
  Form.currentSkill a = Form.currentSkill b →
  Form.availableResearchAreas a = Form.availableResearchAreas b →
  Form.filteredResearchAreas a = Form.filteredResearchAreas b →
  Form.showResearchDropdown a = Form.showResearchDropdown b →
  Form.loadingResearchAreas a = Form.loadingResearchAreas b →
  a = b.
Proof. destruct a, b; simpl; intros; by subst. Qed.

Lemma UserInfo_eq (a b : UserInfo) :
  name a = name b → major a = major b →
  research_interests a = research_interests b → skills a = skills b →
  a = b.
Proof. destruct a, b; simpl; intros; by subst. Qed.

Lemma filter_ne_id (s : jsstring) (tags : list jsstring) :
  s ∉ tags → filter (λ i, i ≠ s) tags = tags.
Proof.
  induction tags as [|t r IH]; [done|].
  intros [Hne Hr]%not_elem_of_cons.
  rewrite filter_cons_True by congruence. by rewrite IH.
Qed.

Lemma filter_ne_occurrences (s : jsstring) (tags : list jsstring) :
  (length (filter (λ i, i ≠ s) tags) + Spec.occurrences s tags = length tags)%nat.
Proof.
  unfold Spec.occurrences.
  induction tags as [|t r IH]; [done|].
  rewrite !filter_cons. destruct (decide (t = s)) as [->|Hne].
  - rewrite decide_False by (intros Hs; by apply Hs). simpl. lia.
  - rewrite decide_True by done. simpl. lia.
Qed.

Lemma filter_ne_absent (s : jsstring) (tags : list jsstring) :
  s ∉ filter (λ i, i ≠ s) tags.
Proof. rewrite list_elem_of_filter. by intros [Hne _]. Qed.

(** C4: submitting a form whose name or major is the empty string makes no
    call to [onSubmit]; a call is made only when both are non-empty, and it
    passes the form data. *)
Theorem C4_submit_guard (st : Form.FormState) :
  (name (Form.formData st) = [] ∨ major (Form.formData st) = [] →
   Form.handleSubmit st = [])
  ∧ (∀ u, u ∈ Form.handleSubmit st →
          name (Form.formData st) ≠ [] ∧ major (Form.formData st) ≠ []
          ∧ u = Form.formData st)
  ∧ (name (Form.formData st) ≠ [] → major (Form.formData st) ≠ [] →
     Form.handleSubmit st = [Form.formData st]).
Proof.
  unfold Form.handleSubmit.
  destruct (name (Form.formData st)) as [|a n], (major (Form.formData st)) as [|b m];
    simpl; (split; [|split]); try done.
  all: try (intros u Hu; by apply elem_of_nil in Hu).
  all: try (intros [H | H]; done).
  intros u Hu. by apply list_elem_of_singleton in Hu.
Qed.

(** C5: adding a tag changes nothing when the trimmed candidate is empty or
    is already in the list (exact equality of strings), for research
    interests and for skills alike. *)
Theorem C5_add_tag_noop (st : Form.FormState) (interest : option jsstring) :
  (trim (Form.interestToAdd interest st) = []
   ∨ trim (Form.interestToAdd interest st) ∈ research_interests (Form.formData st) →
   Form.addResearchInterest interest st = st)
  ∧ (trim (Form.currentSkill st) = []
     ∨ trim (Form.currentSkill st) ∈ skills (Form.formData st) →
     Form.addSkill st = st).
Proof.
  split.
  - unfold Form.addResearchInterest. intros [Hempty | Hin].
    + by rewrite Hempty.
    + apply array_includes_elem_of in Hin. rewrite Hin.
      by rewrite andb_false_r.
  - unfold Form.addSkill. intros [Hempty | Hin].
    + by rewrite Hempty.
    + apply array_includes_elem_of in Hin. rewrite Hin.
      by rewrite andb_false_r.
Qed.

(** C6: removing a string that is not in the list leaves the form as it was;
    in general the removal keeps the order of the list, deletes every entry
    equal to the string and deletes nothing else. *)
Theorem C6_remove_tag (st : Form.FormState) (s : jsstring) :
  (s ∉ research_interests (Form.formData st) → Form.removeResearchInterest s st = st)
  ∧ (s ∉ skills (Form.formData st) → Form.removeSkill s st = st)
  ∧ (sublist (research_interests (Form.formData (Form.removeResearchInterest s st)))
             (research_interests (Form.formData st))
     ∧ (s ∉ research_interests (Form.formData (Form.removeResearchInterest s st)))
     ∧ (length (research_interests (Form.formData (Form.removeResearchInterest s st)))
        + Spec.occurrences s (research_interests (Form.formData st))
        = length (research_interests (Form.formData st)))%nat)
  ∧ (sublist (skills (Form.formData (Form.removeSkill s st)))
             (skills (Form.formData st))
     ∧ (s ∉ skills (Form.formData (Form.removeSkill s st)))
     ∧ (length (skills (Form.formData (Form.removeSkill s st)))
        + Spec.occurrences s (skills (Form.formData st))
        = length (skills (Form.formData st)))%nat).
Proof.
  split; [|split; [|split]].
  - intros Hs. apply FormState_eq; try done.
    apply UserInfo_eq; try done. simpl. by apply filter_ne_id.
  - intros Hs. apply FormState_eq; try done.
    apply UserInfo_eq; try done. simpl. by apply filter_ne_id.
  - simpl. split; [apply sublist_filter|].
    split; [apply filter_ne_absent | apply filter_ne_occurrences].
  - simpl. split; [apply sublist_filter|].
    split; [apply filter_ne_absent | apply filter_ne_occurrences].
Qed.

(** C7: when the research-areas request of the mount effect is rejected, the
    form takes the fixed list of ten areas for both the available and the
    filtered areas, clears the loading flag (the interest input is enabled),
    leaves every other cell alone, and ends in the very state a successful
    answer carrying that list would have produced: the failure goes to the
    console only. *)
Theorem C7_research_areas_fallback (e : Thrown) (st : Form.FormState) :
  let st' := fst (Form.fetchResearchAreas (Rejected e) st) in
  Form.availableResearchAreas st' = Form.fallbackAreas
  ∧ Form.filteredResearchAreas st' = Form.fallbackAreas
  ∧ length Form.fallbackAreas = 10%nat
  ∧ Form.loadingResearchAreas st' = false
  ∧ Form.interest_input_disabled st' = false
  ∧ Form.formData st' = Form.formData st
  ∧ Form.currentInterest st' = Form.currentInterest st
  ∧ Form.currentSkill st' = Form.currentSkill st
  ∧ Form.showResearchDropdown st' = Form.showResearchDropdown st
  ∧ (∀ n, st' = fst (Form.fetchResearchAreas
                       (Fulfilled {| research_areas := Form.fallbackAreas; count := n |})
                       st))
  ∧ snd (Form.fetchResearchAreas (Rejected e) st)
    = [Form.ConsoleError (js "Failed to fetch research areas:") e].
Proof. repeat split. Qed.

(** The handlers on a sample form: a padded duplicate and a blank skill are
    ignored, a different capitalisation is a different tag, removal deletes
    the tag. *)
Example add_padded_duplicate :
  Form.addResearchInterest None Sample.typing_duplicate = Sample.typing_duplicate
  ∧ Form.addSkill Sample.typing_duplicate = Sample.typing_duplicate.
Proof. split; reflexivity. Qed.

Example add_other_capitalisation :
  research_interests
    (Form.formData
       (Form.addResearchInterest (Some (js " machine learning"))
          Sample.typing_duplicate))
  = [js "Machine Learning"; js "machine learning"].
Proof. reflexivity. Qed.

Example remove_present_and_absent :
  research_interests
    (Form.formData
       (Form.removeResearchInterest (js "Machine Learning") Sample.typing_duplicate))
  = []
  ∧ Form.removeResearchInterest (js "machine learning") Sample.typing_duplicate
    = Sample.typing_duplicate.
Proof. split; reflexivity. Qed.

Example submit_without_major :
  Form.handleSubmit (Form.handleInputChange Form.FieldName (js "Ann") Form.initial) = []
  ∧ Form.handleSubmit Sample.typing_duplicate = [Sample.ann].
Proof. split; reflexivity. Qed.

(** *** Tag lists stay well formed *)

Lemma tags_ok_nil : Spec.tags_ok [].
Proof. split; [constructor | apply NoDup_nil_2]. Qed.

Lemma tags_ok_snoc (tags : list jsstring) (candidate : jsstring) :
  Spec.tags_ok tags →
  truthy (trim candidate) = true →
  array_includes tags (trim candidate) = false →
  Spec.tags_ok (tags ++ [trim candidate]).
Proof.
  intros [Hall Hnd] Htruthy Hfresh.
  apply truthy_true in Htruthy.
  apply array_includes_not_elem_of in Hfresh.
  split.
  - apply Forall_app. split; [done|].
    apply Forall_singleton. split; [done | apply trim_idemp].
  - apply NoDup_app. split; [done|]. split; [|apply NoDup_singleton].
    intros x Hx Hx'. apply list_elem_of_singleton in Hx'. by subst.
Qed.

Lemma tags_ok_filter (P : jsstring → Prop) `{!∀ x, Decision (P x)}
  (tags : list jsstring) :
  Spec.tags_ok tags → Spec.tags_ok (filter P tags).
Proof.
  intros [Hall Hnd]. split.
  - apply Forall_forall. intros x [_ Hx]%list_elem_of_filter.
    by apply (proj1 (Forall_forall _ _) Hall).
  - by apply NoDup_filter.
Qed.

Lemma addResearchInterest_tags (interest : option jsstring) (st : Form.FormState) :
  Spec.tags_ok (research_interests (Form.formData st)) →
  Spec.tags_ok (research_interests (Form.formData (Form.addResearchInterest interest st)))
  ∧ skills (Form.formData (Form.addResearchInterest interest st))
    = skills (Form.formData st).
Proof.
  intros Hok. unfold Form.addResearchInterest.
  destruct (truthy (trim (Form.interestToAdd interest st))) eqn:Ht;
    [|by split].
  destruct (array_includes _ _) eqn:Hi; [by split|].
  simpl. split; [by apply tags_ok_snoc | done].
Qed.

Lemma addSkill_tags (st : Form.FormState) :
  Spec.tags_ok (skills (Form.formData st)) →
  Spec.tags_ok (skills (Form.formData (Form.addSkill st)))
  ∧ research_interests (Form.formData (Form.addSkill st))
    = research_interests (Form.formData st).
Proof.
  intros Hok. unfold Form.addSkill.
  destruct (truthy (trim (Form.currentSkill st))) eqn:Ht; [|by split].
  destruct (array_includes _ _) eqn:Hi; [by split|].
  simpl. split; [by apply tags_ok_snoc | done].
Qed.

Lemma handle_tags (toLowerCase : jsstring → jsstring) (ev : Form.FormEvent)
  (st : Form.FormState) :
  Spec.tags_ok (research_interests (Form.formData st)) →
  Spec.tags_ok (skills (Form.formData st)) →
  Spec.tags_ok (research_interests (Form.formData (Form.handle toLowerCase ev st)))
  ∧ Spec.tags_ok (skills (Form.formData (Form.handle toLowerCase ev st))).
Proof.
  intros Hri Hsk.
  destruct ev as [o| |field value|value|key| | |area|interest|value|key| |skill| ];
    simpl.
  - by destruct o.
  - done.
  - by destruct field.
  - unfold Form.handleResearchInputChange, Form.filterResearchAreas.
    by destruct (negb _).
  - destruct key; simpl; [|done|done].
    destruct (addResearchInterest_tags None st Hri) as [H1 H2].
    by rewrite H2.
  - done.
  - destruct (addResearchInterest_tags None st Hri) as [H1 H2].
    by rewrite H2.
  - destruct (addResearchInterest_tags (Some area) st Hri) as [H1 H2].
    by rewrite H2.
  - split; [by apply tags_ok_filter | done].
  - done.
  - destruct key; [|done|done].
    destruct (addSkill_tags st Hsk) as [H1 H2]. by rewrite H2.
  - destruct (addSkill_tags st Hsk) as [H1 H2]. by rewrite H2.
  - split; [done | by apply tags_ok_filter].
  - done.
Qed.

Lemma run_tags (toLowerCase : jsstring → jsstring) (evs : list Form.FormEvent) :
  ∀ st : Form.FormState,
    Spec.tags_ok (research_interests (Form.formData st)) →
    Spec.tags_ok (skills (Form.formData st)) →
    Spec.tags_ok (research_interests (Form.formData (Form.run toLowerCase evs st)))
    ∧ Spec.tags_ok (skills (Form.formData (Form.run toLowerCase evs st))).
Proof.
  induction evs as [|ev evs IH]; intros st Hri Hsk; [by split|].
  destruct (handle_tags toLowerCase ev st Hri Hsk) as [Hri' Hsk'].
  exact (IH _ Hri' Hsk').
Qed.

(** C9: whatever sequence of events a freshly mounted form goes through
    (adding and removing tags, typing, key presses, the settled
    research-areas request), its research interests and its skills each hold
    only non-empty strings that are equal to their own trim, and hold no
    string twice. *)
Theorem C9_tag_lists_well_formed (toLowerCase : jsstring → jsstring)
  (evs : list Form.FormEvent) :
  Spec.tags_ok (research_interests (Form.formData (Form.run toLowerCase evs Form.initial)))
  ∧ Spec.tags_ok (skills (Form.formData (Form.run toLowerCase evs Form.initial))).
Proof. apply run_tags; apply tags_ok_nil. Qed.

(** ** The API client *)

Section ApiClient.

Variable REACT_APP_API_URL : option jsstring.
Variable fetch : Api.Request → Settled Api.Response.
Variable JSON_stringify : Api.JSON → jsstring.
Variable URLSearchParams_toString : list (jsstring * jsstring) → jsstring.
Variable null_read_message : jsstring.
Variable to_primitive_message : jsstring.

Local Abbreviation handleResponse :=
  (Api.handleResponse null_read_message to_primitive_message).
Local Abbreviation send := (Api.send fetch null_read_message to_primitive_message).
Local Abbreviation perform :=
  (Api.perform REACT_APP_API_URL fetch JSON_stringify URLSearchParams_toString
               null_read_message to_primitive_message).

Lemma ok_false (response : Api.Response) :
  ¬ (200 ≤ Api.status response ≤ 299) → Api.ok response = false.
Proof.
  intros Hstatus. unfold Api.ok.
  apply andb_false_iff.
  destruct (N.leb_spec 200 (Api.status response));
    destruct (N.leb_spec (Api.status response) 299); auto.
  exfalso. apply Hstatus. lia.
Qed.

Lemma handleResponse_detail (response : Api.Response)
  (members : list (jsstring * Api.JSON)) (detail : jsstring) :
  Api.ok response = false →
  Api.json response = Fulfilled (Api.JObject members) →
  Api.lookup_member (js "detail") members = Some (Api.JString detail) →
  handleResponse response = Rejected (ErrorInstance detail).
Proof.
  intros Hok Hjson Hdetail. unfold Api.handleResponse.
  rewrite Hok, Hjson. cbn [negb Api.read_detail]. by rewrite Hdetail.
Qed.

Lemma handleResponse_unparsable (response : Api.Response) (e : Thrown) :
  Api.ok response = false →
  Api.json response = Rejected e →
  handleResponse response
  = Rejected (ErrorInstance (js "HTTP error! status: " ++ of_N (Api.status response))).
Proof.
  intros Hok Hjson. unfold Api.handleResponse.
  by rewrite Hok, Hjson.
Qed.

(** The ways a call fails: the network fails, the status is outside 200-299,
    or the body of a successful answer is not JSON. *)
Lemma send_failure_modes (request : Api.Request) :
  (∀ e, fetch request = Rejected e → send request = Rejected e)
  ∧ (∀ response,
        fetch request = Fulfilled response → Api.ok response = false →
        ∃ e, send request = Rejected e)
  ∧ (∀ response e,
        fetch request = Fulfilled response → Api.ok response = true →
        Api.json response = Rejected e → send request = Rejected e).
Proof.
  unfold Api.send, Api.handleResponse. split; [|split].
  - by intros e ->.
  - intros response -> ->. cbn [negb].
    destruct (Api.read_detail _ _) as [detail|]; [|eauto].
    destruct (Api.new_Error _ detail); eauto.
  - by intros response e -> -> ->.
Qed.

Lemma perform_send (c : Api.Call) : ∃ request, perform c = send request.
Proof. destruct c; eexists; reflexivity. Qed.

(** C2: every method of the client sends one request, and when the network
    answers it with a status outside 200-299 the call is rejected: with an
    [Error] whose message is the string under [detail] when the body is a JSON
    object carrying one, in particular with "bad input" for the body
    [{"detail":"bad input"}], and with the message "HTTP error! status: N"
    (N the status in decimal) when the body does not parse. *)
Theorem C2_error_response_rejects (c : Api.Call) :
  ∃ request,
    perform c = send request
    ∧ ∀ response,
        fetch request = Fulfilled response →
        ¬ (200 ≤ Api.status response ≤ 299) →
        (∀ members detail,
            Api.json response = Fulfilled (Api.JObject members) →
            Api.lookup_member (js "detail") members = Some (Api.JString detail) →
            perform c = Rejected (ErrorInstance detail))
        ∧ (Api.json response
           = Fulfilled (Api.JObject [(js "detail", Api.JString (js "bad input"))]) →
           perform c = Rejected (ErrorInstance (js "bad input")))
        ∧ (∀ e,
              Api.json response = Rejected e →
              perform c
              = Rejected (ErrorInstance
                            (js "HTTP error! status: " ++ of_N (Api.status response)))).
Proof.
  destruct (perform_send c) as [request Hc].
  exists request. split; [done|].
  intros response Hfetch Hstatus%ok_false.
  rewrite Hc. unfold Api.send. rewrite Hfetch.
  split; [|split].
  - intros members detail. by apply handleResponse_detail.
  - intros Hjson. by apply handleResponse_detail with (members := [(js "detail", Api.JString (js "bad input"))]).
  - intros e. by apply handleResponse_unparsable.
Qed.

End ApiClient.

(** The two error paths of [handleResponse], run on sample networks. *)
Example createUser_bad_input :
  Api.createUser None Sample.bad_input_network (λ _, []) [] [] Sample.ann
  = Rejected (ErrorInstance (js "bad input")).
Proof. reflexivity. Qed.

Example getResearchAreas_bad_gateway :
  Api.getResearchAreas None Sample.bad_gateway_network [] []
  = Rejected (ErrorInstance (js "HTTP error! status: 502")).
Proof. reflexivity. Qed.

(** ** The display *)

Lemma render_card_tags (professor : ProfessorInfo) :
  Display.interest_tags (Display.render_card professor)
  = take (5 `min` length (prof_research_interests professor))
         (prof_research_interests professor).
Proof.
  unfold Display.render_card, Display.interest_tags.
  destruct (Nat.min_spec 5 (length (prof_research_interests professor)))
    as [[_ ->] | [Hle ->]]; [done|].
  by rewrite !take_ge by lia.
Qed.

Lemma render_card_more (professor : ProfessorInfo) :
  (length (prof_research_interests professor) ≤ 5 →
   Display.more_tag (Display.render_card professor) = None)%nat
  ∧ (5 < length (prof_research_interests professor) →
     Display.more_tag (Display.render_card professor)
     = Some (js "+"
             ++ of_N (N.of_nat (length (prof_research_interests professor) - 5))
             ++ js " more"))%nat.
Proof.
  unfold Display.render_card, Display.more_tag.
  destruct (Nat.ltb_spec 5 (length (prof_research_interests professor)));
    split; intros; (done || lia).
Qed.

Lemma ProfessorDisplay_cards (H : Type) (ps : list ProfessorInfo)
  (back : option H) :
  Display.cards_of
    (Display.ProfessorDisplay
       {| Display.professors := ps; Display.loading := false;
          Display.error := None; Display.onBack := back |})
  = Display.render_card <$> ps.
Proof. unfold Display.ProfessorDisplay. simpl. by destruct ps. Qed.

(** ** The orchestrator *)

Lemma settled_fulfilled (response : ProfessorRecommendationResponse) (c : App.Cells) :
  App.handleUserSubmit_settled (Fulfilled response) c
  = App.setState App.AppState.results (App.setProfessors (recommendations response) c).
Proof.
  unfold App.handleUserSubmit_settled.
  by destruct (recommendations response).
Qed.

Lemma screen_button_render (c : App.Cells) :
  App.screen_button (App.render c)
  = match App.state c with
    | App.AppState.form | App.AppState.loading => None
    | App.AppState.results => Some App.HandleBack
    | App.AppState.error => Some App.HandleRetry
    end.
Proof.
  unfold App.render, Display.ProfessorDisplay.
  destruct (App.state c); simpl; try done.
  - by destruct (App.professors c).
  - by destruct (truthy (App.error c)).
Qed.

(** C8: once a response has arrived, the results screen shows one card per
    recommended professor, in the order of the response; a card shows the
    first min(5, length) research interests of its professor in order, and a
    further "+N more" tag, N the length minus 5, exactly when the professor
    has more than 5. *)
Theorem C8_cards_and_interest_tags (c : App.Cells)
  (response : ProfessorRecommendationResponse) :
  App.state (App.handleUserSubmit_settled (Fulfilled response) c) = App.AppState.results
  ∧ length (App.screen_cards
              (App.render (App.handleUserSubmit_settled (Fulfilled response) c)))
    = length (recommendations response)
  ∧ ∀ (i : nat) (professor : ProfessorInfo),
      recommendations response !! i = Some professor →
      ∃ card,
        App.screen_cards
          (App.render (App.handleUserSubmit_settled (Fulfilled response) c)) !! i
        = Some card
        ∧ Display.card_name card = prof_name professor
        ∧ Display.interest_tags card
          = take (5 `min` length (prof_research_interests professor))
                 (prof_research_interests professor)
        ∧ (length (prof_research_interests professor) ≤ 5 →
           Display.more_tag card = None)%nat
        ∧ (5 < length (prof_research_interests professor) →
           Display.more_tag card
           = Some (js "+"
                   ++ of_N (N.of_nat (length (prof_research_interests professor) - 5))
                   ++ js " more"))%nat.
Proof.
  rewrite settled_fulfilled. unfold App.render. simpl.
  rewrite ProfessorDisplay_cards.
  split; [done|]. split; [by rewrite length_fmap|].
  intros i professor Hi.
  exists (Display.render_card professor).
  split; [by rewrite list_lookup_fmap, Hi|].
  split; [done|]. split; [apply render_card_tags|].
  apply render_card_more.
Qed.

(** The end-to-end scenario of the specification: Ann submits, the backend
    returns two professors, the screen shows two cards with sliced tags. *)
Example ann_two_professors :
  App.screen_cards <$>
    (App.render <$>
       (App.cells <$>
          App.steps App.start
            [App.Submit Sample.ann; App.Settle (Fulfilled Sample.two_professors)]))
  = Some [Display.render_card
            (Sample.professor "Ada" [js "Machine Learning"; js "Robotics"]);
          Display.render_card (Sample.professor "Alan" Sample.seven_interests)]
  ∧ Display.interest_tags
      (Display.render_card (Sample.professor "Alan" Sample.seven_interests))
    = [js "a"; js "b"; js "c"; js "d"; js "e"]
  ∧ Display.more_tag
      (Display.render_card (Sample.professor "Alan" Sample.seven_interests))
    = Some (js "+2 more").
Proof. repeat split. Qed.

(** C3, as the specification words it, fails: a response that reports
    [match_count] 0 and carries a professor is shown as a results grid. *)
Lemma C3_zero_match_count_shows_cards :
  match_count Sample.zero_count_one_professor = 0%Z
  ∧ App.screen_no_results <$>
      (App.render <$>
         (App.cells <$>
            App.steps App.start
              [App.Submit Sample.ann;
               App.Settle (Fulfilled Sample.zero_count_one_professor)]))
    = Some false.
Proof. split; reflexivity. Qed.

(** C3, amended: a response whose list of recommendations is empty is shown
    as the "no results" screen with the back action, whatever [match_count]
    it reports; and for every response, empty or not, the state after it does
    not depend on [match_count] at all: two responses with the same
    recommendations leave [App] in the same state. *)
Theorem C3_no_results_by_recommendations (c : App.Cells)
  (response : ProfessorRecommendationResponse) :
  (recommendations response = [] →
   App.render (App.handleUserSubmit_settled (Fulfilled response) c)
   = App.ProfessorDisplay (Display.NoResults (Some App.HandleBack)))
  ∧ (∀ n : Z,
        App.handleUserSubmit_settled
          (Fulfilled {| recommendations := recommendations response;
                        match_count := n |}) c
        = App.handleUserSubmit_settled (Fulfilled response) c)
  ∧ (∀ response' : ProfessorRecommendationResponse,
        recommendations response' = recommendations response →
        App.handleUserSubmit_settled (Fulfilled response') c
        = App.handleUserSubmit_settled (Fulfilled response) c).
Proof.
  split; [|split].
  - intros Hempty. rewrite settled_fulfilled, Hempty. reflexivity.
  - intros n. by rewrite !settled_fulfilled.
  - intros response' Hsame. by rewrite !settled_fulfilled, Hsame.
Qed.

Lemma C3_no_results_witness :
  App.render (App.handleUserSubmit_settled (Fulfilled Sample.no_professors) App.initial)
  = App.ProfessorDisplay (Display.NoResults (Some App.HandleBack))
  ∧ App.handleUserSubmit_settled
      (Fulfilled {| recommendations := recommendations Sample.two_professors;
                    match_count := 0 |}) App.initial
    = App.handleUserSubmit_settled (Fulfilled Sample.two_professors) App.initial.
Proof.
  split.
  - apply (proj1 (C3_no_results_by_recommendations App.initial Sample.no_professors)).
    reflexivity.
  - apply (proj1 (proj2 (C3_no_results_by_recommendations App.initial
                           Sample.two_professors))).
Defined.

(** C10: from the error screen the button runs [handleRetry]; with no stored
    [userInfo] the page goes to the form and no request is issued, with a
    stored one the page goes to loading and issues one request carrying
    exactly that [userInfo], which stays stored. *)
Theorem C10_retry (p : App.Page) :
  App.state (App.cells p) = App.AppState.error →
  App.step p App.ClickButton = Some (App.after p (App.handleRetry (App.cells p)))
  ∧ (App.userInfo (App.cells p) = None →
     App.state (fst (App.handleRetry (App.cells p))) = App.AppState.form
     ∧ snd (App.handleRetry (App.cells p)) = []
     ∧ App.in_flight (App.after p (App.handleRetry (App.cells p))) = App.in_flight p)
  ∧ (∀ u, App.userInfo (App.cells p) = Some u →
          App.handleRetry (App.cells p) = App.handleUserSubmit u (App.cells p)
          ∧ App.state (fst (App.handleRetry (App.cells p))) = App.AppState.loading
          ∧ snd (App.handleRetry (App.cells p)) = [App.getProfessorRecommendations u]
          ∧ App.userInfo (fst (App.handleRetry (App.cells p))) = Some u).
Proof.
  intros Herror. split; [|split].
  - unfold App.step. by rewrite screen_button_render, Herror.
  - intros Hnone. unfold App.after, App.handleRetry. rewrite Hnone. simpl.
    by rewrite app_nil_r.
  - intros u Hsome. unfold App.handleRetry. by rewrite Hsome.
Qed.

Lemma C10_retry_witness :
  App.step Sample.failed_without_user App.ClickButton
  = Some (App.after Sample.failed_without_user
            (App.handleRetry (App.cells Sample.failed_without_user)))
  ∧ App.step Sample.failed App.ClickButton = Some Sample.retried.
Proof.
  split.
  - apply (C10_retry Sample.failed_without_user). reflexivity.
  - apply (C10_retry Sample.failed). reflexivity.
Defined.

(** *** The transitions of a session *)

Lemma page_ok_reachable (p : App.Page) : App.reachable p → Spec.page_ok p.
Proof.
  induction 1 as [|p e p' Hreach IH Hstep]; [done|].
  unfold Spec.page_ok in *.
  destruct e as [userData | o | ]; simpl in Hstep.
  - unfold App.render in Hstep.
    destruct (App.state (App.cells p)); try done.
    injection Hstep as <-. simpl. rewrite IH. by exists userData.
  - destruct (App.in_flight p) as [|r rest] eqn:Hq; [done|].
    injection Hstep as <-.
    destruct (App.state (App.cells p)); try done; [|by destruct IH].
    destruct IH as (u & [= -> ->] & Hu).
    destruct o as [response | err]; simpl.
    + by destruct (recommendations response).
    + split; [done|]. by rewrite Hu.
  - rewrite screen_button_render in Hstep.
    destruct (App.state (App.cells p)); try done; injection Hstep as <-.
    + simpl. by rewrite IH.
    + destruct IH as [Hq [u Hu]]. unfold App.handleRetry. rewrite Hu. simpl.
      rewrite Hq. by exists u.
Qed.

Lemma step_transition (p p' : App.Page) (e : App.Event) :
  Spec.page_ok p →
  App.step p e = Some p' →
  Spec.app_transition (App.state (App.cells p)) e (App.state (App.cells p')).
Proof.
  unfold Spec.page_ok, Spec.app_transition. intros Hok Hstep.
  destruct e as [userData | o | ]; simpl in Hstep.
  - unfold App.render in Hstep.
    destruct (App.state (App.cells p)); try done.
    injection Hstep as <-. left. eauto.
  - destruct (App.in_flight p) as [|r rest] eqn:Hq; [done|].
    injection Hstep as <-.
    destruct (App.state (App.cells p)); try done.
    + destruct o as [response | err]; simpl.
      * right; left. split; [done|]. split; [eauto|].
        by destruct (recommendations response).
      * right; right; left. eauto.
    + by destruct Hok.
  - rewrite screen_button_render in Hstep.
    destruct (App.state (App.cells p)); try done; injection Hstep as <-.
    + right; right; right; left. done.
    + destruct Hok as [_ [u Hu]]. unfold App.handleRetry. rewrite Hu.
      right; right; right; right. done.
Qed.

(** C1, as the specification words it, fails: in the session where Ann's
    submission is rejected, the button of the error screen leads to loading,
    and that is not a listed transition. *)
Lemma C1_retry_leads_to_loading :
  App.steps App.start
    [App.Submit Sample.ann; App.Settle (Rejected (ErrorInstance (js "bad input")))]
  = Some Sample.failed
  ∧ App.step Sample.failed App.ClickButton = Some Sample.retried
  ∧ App.state (App.cells Sample.failed) = App.AppState.error
  ∧ App.state (App.cells Sample.retried) = App.AppState.loading
  ∧ ¬ Spec.listed_transition
        (App.state (App.cells Sample.failed)) App.ClickButton
        (App.state (App.cells Sample.retried)).
Proof.
  repeat split.
  intros [(H & _) | [(H & _) | [(H & _) | (_ & _ & H)]]]; discriminate H.
Qed.

(** C1, amended: the state is always one of form, loading, results, error,
    and every state change in a session is one of: form to loading on submit,
    loading to results on success (any number of recommendations), loading to
    error on a thrown error, results to form on the back button, error to
    loading on the retry button. *)
Theorem C1_transitions (p p' : App.Page) (e : App.Event) :
  App.reachable p →
  App.step p e = Some p' →
  Spec.app_transition (App.state (App.cells p)) e (App.state (App.cells p'))
  ∧ App.state (App.cells p')
    ∈ [App.AppState.form; App.AppState.loading; App.AppState.results;
       App.AppState.error].
Proof.
  intros Hreach Hstep. split.
  - by apply step_transition; [apply page_ok_reachable|].
  - destruct (App.state (App.cells p')); repeat constructor.
Qed.

Lemma C1_transitions_witness :
  Spec.app_transition
    (App.state (App.cells Sample.failed)) App.ClickButton
    (App.state (App.cells Sample.retried))
  ∧ App.state (App.cells Sample.retried)
    ∈ [App.AppState.form; App.AppState.loading; App.AppState.results;
       App.AppState.error].
Proof.
  apply (C1_transitions Sample.failed Sample.retried App.ClickButton).
  - apply (App.reachable_step
             {| App.cells := fst (App.handleUserSubmit Sample.ann App.initial);
                App.in_flight := [App.getProfessorRecommendations Sample.ann] |}
             (App.Settle (Rejected (ErrorInstance (js "bad input"))))).
    + apply (App.reachable_step App.start (App.Submit Sample.ann));
        [apply App.reachable_start | reflexivity].
    + reflexivity.
  - reflexivity.
Defined.

(** * Further properties of the form *)

Lemma trim_nil : trim [] = [].
Proof. reflexivity. Qed.

Lemma interestToAdd_after_clear (interest : option jsstring) (st st' : Form.FormState) :
  Form.currentInterest st' = [] →
  Form.interestToAdd interest st' = []
  ∨ Form.interestToAdd interest st' = Form.interestToAdd interest st.
Proof.
  intros Hclear. unfold Form.interestToAdd, or_else. rewrite Hclear.
  destruct interest as [[|a i]|]; simpl; auto.
Qed.

(** X1: adding is idempotent.  Running [addResearchInterest] a second time
    with the same argument, or [addSkill] a second time, changes nothing. *)
Theorem add_tag_idempotent (interest : option jsstring) (st : Form.FormState) :
  Form.addResearchInterest interest (Form.addResearchInterest interest st)
  = Form.addResearchInterest interest st
  ∧ Form.addSkill (Form.addSkill st) = Form.addSkill st.
Proof.
  split.
  - destruct (truthy (trim (Form.interestToAdd interest st))
              && negb (array_includes (research_interests (Form.formData st))
                         (trim (Form.interestToAdd interest st)))) eqn:Hguard.
    + assert (Form.addResearchInterest interest st
              = Form.setShowResearchDropdown false
                  (Form.setCurrentInterest []
                     (Form.setFormData
                        (λ prev, Form.with_research_interests
                                   (research_interests prev
                                    ++ [trim (Form.interestToAdd interest st)]) prev)
                        st))) as ->
        by (unfold Form.addResearchInterest; cbv zeta; by rewrite Hguard).
      set (st' := Form.setShowResearchDropdown false _).
      unfold Form.addResearchInterest. cbv zeta.
      destruct (interestToAdd_after_clear interest st st' eq_refl) as [-> | ->];
        [done|].
      replace (array_includes (research_interests (Form.formData st')) _) with true;
        [by rewrite andb_false_r|].
      symmetry. apply array_includes_elem_of. simpl.
      apply elem_of_app. right. by apply list_elem_of_singleton.
    + assert (Form.addResearchInterest interest st = st) as ->
        by (unfold Form.addResearchInterest; cbv zeta; by rewrite Hguard).
      unfold Form.addResearchInterest; cbv zeta; by rewrite Hguard.
  - destruct (truthy (trim (Form.currentSkill st))
              && negb (array_includes (skills (Form.formData st))
                         (trim (Form.currentSkill st)))) eqn:Hguard.
    + assert (Form.addSkill st
              = Form.setCurrentSkill []
                  (Form.setFormData
                     (λ prev, Form.with_skills
                                (skills prev ++ [trim (Form.currentSkill st)]) prev)
                     st)) as ->
        by (unfold Form.addSkill; by rewrite Hguard).
      reflexivity.
    + assert (Form.addSkill st = st) as ->
        by (unfold Form.addSkill; by rewrite Hguard).
      unfold Form.addSkill; by rewrite Hguard.
Qed.

Lemma filter_ne_snoc (t : jsstring) (tags : list jsstring) :
  t ∉ tags → filter (λ i, i ≠ t) (tags ++ [t]) = tags.
Proof.
  intros Ht. rewrite filter_app, filter_ne_id by done.
  rewrite filter_cons_False by (intros Hne; by apply Hne).
  apply app_nil_r.
Qed.

(** X2: removing a tag right after it was added restores the form data: when
    the trimmed candidate is non-empty and not yet in the list, adding it and
    then removing it gives back the name, major and both lists as they
    were. *)
Theorem add_then_remove_restores (interest : option jsstring) (st : Form.FormState) :
  trim (Form.interestToAdd interest st) ≠ [] →
  trim (Form.interestToAdd interest st) ∉ research_interests (Form.formData st) →
  Form.formData
    (Form.removeResearchInterest (trim (Form.interestToAdd interest st))
       (Form.addResearchInterest interest st))
  = Form.formData st.
Proof.
  intros Hne%truthy_true Hfresh.
  unfold Form.addResearchInterest.
  rewrite Hne, (proj2 (array_includes_not_elem_of _ _) Hfresh).
  apply UserInfo_eq; try done. simpl. by apply filter_ne_snoc.
Qed.

Lemma add_then_remove_restores_witness :
  Form.formData
    (Form.removeResearchInterest
       (trim (Form.interestToAdd (Some (js " Robotics ")) Sample.typing_duplicate))
       (Form.addResearchInterest (Some (js " Robotics ")) Sample.typing_duplicate))
  = Form.formData Sample.typing_duplicate.
Proof.
  apply (add_then_remove_restores (Some (js " Robotics ")) Sample.typing_duplicate).
  - vm_compute. discriminate.
  - vm_compute. intros H. inversion H as [|? ? ? H']; subst. inversion H'.
Defined.

(** X3: what adding guarantees, whichever branch is taken: the old list is a
    prefix of the new one, the list grows by at most one entry, and a
    candidate that is not blank is in the list afterwards. *)
Theorem add_tag_postcondition (interest : option jsstring) (st : Form.FormState) :
  research_interests (Form.formData st)
    `prefix_of` research_interests (Form.formData (Form.addResearchInterest interest st))
  ∧ (length (research_interests (Form.formData (Form.addResearchInterest interest st)))
     ≤ S (length (research_interests (Form.formData st))))%nat
  ∧ (trim (Form.interestToAdd interest st) ≠ [] →
     trim (Form.interestToAdd interest st)
     ∈ research_interests (Form.formData (Form.addResearchInterest interest st))).
Proof.
  unfold Form.addResearchInterest.
  destruct (truthy (trim (Form.interestToAdd interest st))) eqn:Ht; simpl.
  - destruct (array_includes _ _) eqn:Hi; simpl.
    + split; [done|]. split; [lia|]. intros _. by apply array_includes_elem_of.
    + split; [by apply prefix_app_r|]. split; [rewrite length_app; simpl; lia|].
      intros _. apply elem_of_app. right. by apply list_elem_of_singleton.
  - split; [done|]. split; [lia|]. intros Hne. apply truthy_false in Ht. done.
Qed.

(** X4: removals commute and are idempotent. *)
Theorem remove_tag_commutes (a b : jsstring) (st : Form.FormState) :
  Form.removeResearchInterest a (Form.removeResearchInterest b st)
  = Form.removeResearchInterest b (Form.removeResearchInterest a st)
  ∧ Form.removeResearchInterest a (Form.removeResearchInterest a st)
    = Form.removeResearchInterest a st
  ∧ Form.removeSkill a (Form.removeSkill b st)
    = Form.removeSkill b (Form.removeSkill a st).
Proof.
  split; [|split].
  - apply FormState_eq; try done. apply UserInfo_eq; try done. simpl.
    rewrite !list_filter_filter. apply list_filter_iff. intros x. tauto.
  - apply FormState_eq; try done. apply UserInfo_eq; try done. simpl.
    apply filter_ne_id, filter_ne_absent.
  - apply FormState_eq; try done. apply UserInfo_eq; try done. simpl.
    rewrite !list_filter_filter. apply list_filter_iff. intros x. tauto.
Qed.

(** *** Suggestions *)

Lemma startsWith_prefix (s p : jsstring) :
  startsWith s p = true ↔ ∃ b, s = p ++ b.
Proof.
  revert s. induction p as [|x p IH]; intros s.
  - destruct s; simpl; (split; [eauto | done]).
  - destruct s as [|y s]; simpl.
    + split; [done | by intros [b Hb]].
    + rewrite andb_true_iff, N.eqb_eq, IH. split.
      * intros [-> [b ->]]. by exists b.
      * intros [b [= -> ->]]. eauto.
Qed.

(** [includes] finds exactly the contiguous occurrences. *)
Lemma includes_infix (s p : jsstring) :
  includes s p = true ↔ ∃ a b, s = a ++ p ++ b.
Proof.
  induction s as [|y s IH].
  - cbn [includes]. rewrite orb_false_r, startsWith_prefix. split.
    + intros [b Hb]. by exists [], b.
    + intros (a & b & Hab). symmetry in Hab.
      apply app_eq_nil in Hab as [-> Hab]. eauto.
  - cbn [includes]. rewrite orb_true_iff, startsWith_prefix, IH. split.
    + intros [[b Hb] | (a & b & ->)]; [by exists [], b | by exists (y :: a), b].
    + intros ([|z a] & b & Hab).
      * left. by exists b.
      * right. injection Hab as -> ->. eauto.
Qed.

(** X5: for an input that is not blank, [filterResearchAreas] keeps exactly the
    available areas whose lower-cased name contains the lower-cased input as
    a contiguous run, in their order; a blank input restores the whole
    list. *)
Theorem filter_keeps_matching_areas (toLowerCase : jsstring → jsstring)
  (input : jsstring) (st : Form.FormState) :
  (trim input = [] →
   Form.filteredResearchAreas (Form.filterResearchAreas toLowerCase input st)
   = Form.availableResearchAreas st)
  ∧ (trim input ≠ [] →
     sublist (Form.filteredResearchAreas (Form.filterResearchAreas toLowerCase input st))
             (Form.availableResearchAreas st)
     ∧ ∀ area,
         area ∈ Form.filteredResearchAreas (Form.filterResearchAreas toLowerCase input st)
         ↔ area ∈ Form.availableResearchAreas st
           ∧ ∃ a b, toLowerCase area = a ++ toLowerCase input ++ b).
Proof.
  unfold Form.filterResearchAreas. split.
  - intros ->. reflexivity.
  - intros Hne%truthy_true. rewrite Hne. simpl.
    split; [apply sublist_filter|].
    intros area. rewrite list_elem_of_filter, Is_true_true, includes_infix. tauto.
Qed.

Lemma handle_filtered_sublist (toLowerCase : jsstring → jsstring)
  (ev : Form.FormEvent) (st : Form.FormState) :
  sublist (Form.filteredResearchAreas st) (Form.availableResearchAreas st) →
  sublist (Form.filteredResearchAreas (Form.handle toLowerCase ev st))
          (Form.availableResearchAreas (Form.handle toLowerCase ev st)).
Proof.
  intros Hsub.
  destruct ev as [o| |field value|value|key| | |area|interest|value|key| |skill| ];
    simpl; try done.
  - by destruct o.
  - by destruct field.
  - unfold Form.handleResearchInputChange, Form.filterResearchAreas.
    destruct (negb _); simpl; [done | apply sublist_filter].
  - destruct key; simpl; try done.
    unfold Form.addResearchInterest. by destruct (_ && _).
  - unfold Form.addResearchInterest. by destruct (_ && _).
  - unfold Form.addResearchInterest. by destruct (_ && _).
  - destruct key; try done. unfold Form.addSkill. by destruct (_ && _).
  - unfold Form.addSkill. by destruct (_ && _).
Qed.

Lemma run_filtered_sublist (toLowerCase : jsstring → jsstring)
  (evs : list Form.FormEvent) :
  ∀ st : Form.FormState,
    sublist (Form.filteredResearchAreas st) (Form.availableResearchAreas st) →
    sublist (Form.filteredResearchAreas (Form.run toLowerCase evs st))
            (Form.availableResearchAreas (Form.run toLowerCase evs st)).
Proof.
  induction evs as [|ev evs IH]; intros st Hsub; [done|].
  apply IH. by apply handle_filtered_sublist.
Qed.

(** X6: whatever a freshly mounted form has gone through, an open dropdown
    shows at most ten suggestions, every one of them an available research
    area, and the suggestions together with the count of the "more options"
    line account for the whole filtered list. *)
Theorem dropdown_offers_available_areas (toLowerCase : jsstring → jsstring)
  (evs : list Form.FormEvent) (d : FormView.Dropdown) :
  FormView.dropdown (Form.run toLowerCase evs Form.initial) = Some d →
  (length (FormView.suggestions d) ≤ 10)%nat
  ∧ (∀ area, area ∈ FormView.suggestions d →
             area ∈ Form.availableResearchAreas (Form.run toLowerCase evs Form.initial))
  ∧ (length (FormView.suggestions d) + default 0%nat (FormView.more_options d)
     = length (Form.filteredResearchAreas (Form.run toLowerCase evs Form.initial)))%nat
  ∧ (FormView.more_options d ≠ Some 0%nat).
Proof.
  pose proof (run_filtered_sublist toLowerCase evs Form.initial
                ltac:(reflexivity)) as Hsub.
  set (st := Form.run toLowerCase evs Form.initial) in *.
  unfold FormView.dropdown. destruct (_ && _); [|done].
  intros [= <-]. cbn [FormView.suggestions FormView.more_options].
  rewrite length_take.
  split; [lia|]. split.
  - intros area Harea.
    eapply elem_of_sublist; [|exact Hsub].
    eapply elem_of_sublist; [exact Harea | apply sublist_take].
  - destruct (10 <? length (Form.filteredResearchAreas st))%nat eqn:Hlt;
      cbn [default from_option]; unfold id.
    + apply Nat.ltb_lt in Hlt. split; [lia|]. intros [= H0]. lia.
    + apply Nat.ltb_ge in Hlt. split; [lia | done].
Qed.

Lemma dropdown_offers_available_areas_witness :
  (length (FormView.suggestions SampleForm.dropdown_C) ≤ 10)%nat
  ∧ (∀ area, area ∈ FormView.suggestions SampleForm.dropdown_C →
             area ∈ Form.availableResearchAreas
                      (Form.run (λ s, s) SampleForm.typed_C Form.initial))
  ∧ (length (FormView.suggestions SampleForm.dropdown_C)
     + default 0%nat (FormView.more_options SampleForm.dropdown_C)
     = length (Form.filteredResearchAreas
                 (Form.run (λ s, s) SampleForm.typed_C Form.initial)))%nat
  ∧ (FormView.more_options SampleForm.dropdown_C ≠ Some 0%nat).
Proof.
  apply (dropdown_offers_available_areas (λ s, s) SampleForm.typed_C
           SampleForm.dropdown_C).
  vm_compute. reflexivity.
Defined.

(** *** Cells that only some events touch *)

Lemma handle_loading (toLowerCase : jsstring → jsstring) (ev : Form.FormEvent)
  (st : Form.FormState) :
  Form.loadingResearchAreas (Form.handle toLowerCase ev st)
  = Form.loadingResearchAreas st && negb (Trace.is_settled ev).
Proof.
  destruct ev as [o| |field value|value|key| | |area|interest|value|key| |skill| ];
    simpl; try (by rewrite andb_true_r).
  - destruct o; simpl; by rewrite andb_false_r.
  - destruct field; simpl; by rewrite andb_true_r.
  - unfold Form.handleResearchInputChange, Form.filterResearchAreas.
    destruct (negb _); simpl; by rewrite andb_true_r.
  - destruct key; simpl; try (by rewrite andb_true_r).
    unfold Form.addResearchInterest. destruct (_ && _); simpl; by rewrite andb_true_r.
  - unfold Form.addResearchInterest. destruct (_ && _); simpl; by rewrite andb_true_r.
  - unfold Form.addResearchInterest. destruct (_ && _); simpl; by rewrite andb_true_r.
  - destruct key; simpl; try (by rewrite andb_true_r).
    unfold Form.addSkill. destruct (_ && _); simpl; by rewrite andb_true_r.
  - unfold Form.addSkill. destruct (_ && _); simpl; by rewrite andb_true_r.
Qed.

Lemma run_loading (toLowerCase : jsstring → jsstring) (evs : list Form.FormEvent) :
  ∀ st : Form.FormState,
    Form.loadingResearchAreas (Form.run toLowerCase evs st)
    = Form.loadingResearchAreas st && negb (existsb Trace.is_settled evs).
Proof.
  induction evs as [|ev evs IH]; intros st; [by rewrite andb_true_r|].
  change (Form.run toLowerCase (ev :: evs) st)
    with (Form.run toLowerCase evs (Form.handle toLowerCase ev st)).
  rewrite IH, handle_loading. cbn [existsb]. rewrite negb_orb.
  by rewrite andb_assoc.
Qed.

(** X7: the interest input of a freshly mounted form is disabled exactly
    until the research-areas request settles: after any sequence of events
    the loading flag is set if and only if no settlement is among them, and
    no later event sets it again. *)
Theorem interest_input_disabled_until_settled (toLowerCase : jsstring → jsstring)
  (evs : list Form.FormEvent) :
  Form.interest_input_disabled (Form.run toLowerCase evs Form.initial)
  = negb (existsb Trace.is_settled evs).
Proof. unfold Form.interest_input_disabled. by rewrite run_loading. Qed.

Lemma handle_text_field (toLowerCase : jsstring → jsstring) (ev : Form.FormEvent)
  (st : Form.FormState) :
  name (Form.formData (Form.handle toLowerCase ev st))
  = Trace.last_input Form.FieldName (name (Form.formData st)) [ev]
  ∧ major (Form.formData (Form.handle toLowerCase ev st))
    = Trace.last_input Form.FieldMajor (major (Form.formData st)) [ev].
Proof.
  destruct ev as [o| |field value|value|key| | |area|interest|value|key| |skill| ];
    simpl; try done.
  - by destruct o.
  - by destruct field.
  - unfold Form.handleResearchInputChange, Form.filterResearchAreas.
    by destruct (negb _).
  - destruct key; simpl; try done.
    unfold Form.addResearchInterest. by destruct (_ && _).
  - unfold Form.addResearchInterest. by destruct (_ && _).
  - unfold Form.addResearchInterest. by destruct (_ && _).
  - destruct key; try done. unfold Form.addSkill. by destruct (_ && _).
  - unfold Form.addSkill. by destruct (_ && _).
Qed.

Lemma last_input_cons (field : Form.TextField) (v : jsstring) (ev : Form.FormEvent)
  (evs : list Form.FormEvent) :
  Trace.last_input field v (ev :: evs)
  = Trace.last_input field (Trace.last_input field v [ev]) evs.
Proof. destruct ev; try done. by destruct field, field0. Qed.

Lemma run_text_fields (toLowerCase : jsstring → jsstring) (evs : list Form.FormEvent) :
  ∀ st : Form.FormState,
    name (Form.formData (Form.run toLowerCase evs st))
    = Trace.last_input Form.FieldName (name (Form.formData st)) evs
    ∧ major (Form.formData (Form.run toLowerCase evs st))
      = Trace.last_input Form.FieldMajor (major (Form.formData st)) evs.
Proof.
  induction evs as [|ev evs IH]; intros st; [done|].
  destruct (handle_text_field toLowerCase ev st) as [Hn Hm].
  destruct (IH (Form.handle toLowerCase ev st)) as [IHn IHm].
  rewrite !(last_input_cons _ _ ev evs), <- Hn, <- Hm. by split.
Qed.

(** X8: name and major are last-write-wins cells that no other event
    touches: after any sequence of events each holds, verbatim, the value of
    the last input event addressed to it, and is empty when there was none. *)
Theorem text_fields_hold_last_input (toLowerCase : jsstring → jsstring)
  (evs : list Form.FormEvent) :
  name (Form.formData (Form.run toLowerCase evs Form.initial))
  = Trace.last_input Form.FieldName [] evs
  ∧ major (Form.formData (Form.run toLowerCase evs Form.initial))
    = Trace.last_input Form.FieldMajor [] evs.
Proof. apply (run_text_fields toLowerCase evs Form.initial). Qed.

(** X9: the submit button and [handleSubmit] agree: with the [loading] prop
    off, the button is enabled exactly when a submission calls [onSubmit],
    and then the call passes the form data; with the prop on the button is
    disabled. *)
Theorem submit_button_agrees_with_handler (st : Form.FormState) :
  (Form.submit_disabled false st = false ↔ Form.handleSubmit st = [Form.formData st])
  ∧ (Form.submit_disabled false st = true ↔ Form.handleSubmit st = [])
  ∧ Form.submit_disabled true st = true.
Proof.
  unfold Form.submit_disabled, Form.isFormValid, Form.handleSubmit.
  destruct (truthy (name (Form.formData st)) && truthy (major (Form.formData st)));
    simpl; repeat split; done.
Qed.

(** X10: what a form passes to [onSubmit], whatever it has gone through
    since it was mounted: a non-empty name, a non-empty major, and two tag
    lists that are well formed (entries non-empty, trimmed, distinct). *)
Theorem submitted_data_well_formed (toLowerCase : jsstring → jsstring)
  (evs : list Form.FormEvent) (u : UserInfo) :
  u ∈ Form.handleSubmit (Form.run toLowerCase evs Form.initial) →
  name u ≠ [] ∧ major u ≠ []
  ∧ Spec.tags_ok (research_interests u) ∧ Spec.tags_ok (skills u).
Proof.
  destruct (run_tags toLowerCase evs Form.initial tags_ok_nil tags_ok_nil)
    as [Hri Hsk].
  unfold Form.handleSubmit.
  destruct (truthy (name _)) eqn:Hn; [|by intros ?%elem_of_nil].
  destruct (truthy (major _)) eqn:Hm; [|by intros ?%elem_of_nil].
  intros ->%list_elem_of_singleton.
  apply truthy_true in Hn. apply truthy_true in Hm. done.
Qed.

Lemma submitted_data_well_formed_witness :
  name (Form.formData (Form.run (λ s, s) SampleForm.filled_in Form.initial)) ≠ []
  ∧ major (Form.formData (Form.run (λ s, s) SampleForm.filled_in Form.initial)) ≠ []
  ∧ Spec.tags_ok
      (research_interests
         (Form.formData (Form.run (λ s, s) SampleForm.filled_in Form.initial)))
  ∧ Spec.tags_ok
      (skills (Form.formData (Form.run (λ s, s) SampleForm.filled_in Form.initial))).
Proof.
  apply (submitted_data_well_formed (λ s, s) SampleForm.filled_in).
  vm_compute. apply list_elem_of_here.
Defined.

(** * Further properties of the API client *)

Lemma startsWith_app (p s : jsstring) : startsWith (p ++ s) p = true.
Proof. apply startsWith_prefix. by exists s. Qed.

Section ApiClientMore.

Variable REACT_APP_API_URL : option jsstring.
Variable fetch : Api.Request → Settled Api.Response.
Variable JSON_stringify : Api.JSON → jsstring.
Variable URLSearchParams_toString : list (jsstring * jsstring) → jsstring.
Variable null_read_message : jsstring.
Variable to_primitive_message : jsstring.

Local Abbreviation API_BASE_URL := (Api.API_BASE_URL REACT_APP_API_URL).
Local Abbreviation send := (Api.send fetch null_read_message to_primitive_message).
Local Abbreviation perform :=
  (Api.perform REACT_APP_API_URL fetch JSON_stringify URLSearchParams_toString
               null_read_message to_primitive_message).
Local Abbreviation request_of :=
  (ApiRequests.request_of REACT_APP_API_URL JSON_stringify URLSearchParams_toString).

(** Each method is [fetch] on its request followed by [handleResponse]. *)
Lemma perform_request_of (c : Api.Call) : perform c = send (request_of c).
Proof.
  destruct c as [u|n|u|params|l o| |]; try reflexivity.
  destruct params as [[a|] [b|] [n|]]; simpl;
    unfold Api.searchProfessors, ApiRequests.searchParams; simpl;
    repeat match goal with |- context [truthy ?x] => destruct (truthy x) end;
    reflexivity.
Qed.

Lemma API_BASE_URL_truthy : API_BASE_URL ≠ [].
Proof.
  unfold Api.API_BASE_URL, or_else.
  destruct REACT_APP_API_URL as [[|a u]|]; done.
Qed.

(** X11: on an answer with a status in 200-299 every method settles as
    [response.json()] does: it resolves with the parsed body whatever the
    body holds (a [detail] member is not looked at) and rejects with the
    parser's error when the body is not JSON. *)
Theorem success_passes_body_through (c : Api.Call) (response : Api.Response) :
  fetch (request_of c) = Fulfilled response →
  200 ≤ Api.status response ≤ 299 →
  perform c = Api.json response.
Proof.
  intros Hfetch [Hlo Hhi]. rewrite perform_request_of.
  unfold Api.send, Api.handleResponse, Api.ok. rewrite Hfetch.
  rewrite (proj2 (N.leb_le _ _) Hlo), (proj2 (N.leb_le _ _) Hhi). reflexivity.
Qed.

(** X12: a failure is never turned into a result: when [fetch] itself is
    rejected every method is rejected with the same value, and when the
    status is outside 200-299 every method is rejected, whatever the body
    is. *)
Theorem failure_always_rejects (c : Api.Call) :
  (∀ e, fetch (request_of c) = Rejected e → perform c = Rejected e)
  ∧ (∀ response,
        fetch (request_of c) = Fulfilled response →
        ¬ (200 ≤ Api.status response ≤ 299) →
        ∃ e, perform c = Rejected e).
Proof.
  rewrite perform_request_of.
  destruct (send_failure_modes fetch null_read_message to_primitive_message
              (request_of c))
    as (Hnet & Hstatus & _).
  split; [exact Hnet|].
  intros response Hfetch Hbad. apply (Hstatus response Hfetch).
  by apply ok_false.
Qed.

(** X13: the error answers that carry no usable [detail]: a body that is a
    JSON object without that member, or a JSON array, string, number or
    boolean, gives an [Error] with the empty message; the body [null] gives
    the engine's error for reading a property of [null]; a [detail] that is
    not a string is converted with [ToString], and when that conversion throws
    (an object with a member named [toString], alone or inside an array) the
    call is rejected with the engine's error for it; any other object prints
    as "[object Object]". *)
Theorem error_without_detail (c : Api.Call) (response : Api.Response) :
  fetch (request_of c) = Fulfilled response →
  ¬ (200 ≤ Api.status response ≤ 299) →
  (∀ members,
      Api.json response = Fulfilled (Api.JObject members) →
      Api.lookup_member (js "detail") members = None →
      perform c = Rejected (ErrorInstance []))
  ∧ (∀ body,
        Api.json response = Fulfilled body →
        (∀ members, body ≠ Api.JObject members) → body ≠ Api.JNull →
        perform c = Rejected (ErrorInstance []))
  ∧ (Api.json response = Fulfilled Api.JNull →
     perform c = Rejected (ErrorInstance null_read_message))
  ∧ (∀ members detail message,
        Api.json response = Fulfilled (Api.JObject members) →
        Api.lookup_member (js "detail") members = Some detail →
        Api.ToString detail = Some message →
        perform c = Rejected (ErrorInstance message))
  ∧ (∀ members detail,
        Api.json response = Fulfilled (Api.JObject members) →
        Api.lookup_member (js "detail") members = Some detail →
        Api.ToString detail = None →
        perform c = Rejected (ErrorInstance to_primitive_message))
  ∧ (∀ members,
        (is_Some (Api.lookup_member (js "toString") members)
         → Api.ToString (Api.JObject members) = None)
        ∧ (Api.lookup_member (js "toString") members = None
           → Api.ToString (Api.JObject members) = Some (js "[object Object]"))).
Proof.
  intros Hfetch Hbad%ok_false. rewrite perform_request_of.
  unfold Api.send, Api.handleResponse. rewrite Hfetch, Hbad. cbn [negb].
  split; [|split; [|split; [|split; [|split]]]].
  - intros members -> Hnone. cbn [Api.read_detail]. by rewrite Hnone.
  - intros body -> Hobj Hnull. destruct body; try done.
    by destruct (Hobj members).
  - by intros ->.
  - intros members detail message -> Hsome Hto. cbn [Api.read_detail].
    rewrite Hsome. unfold Api.new_Error. by rewrite Hto.
  - intros members detail -> Hsome Hto. cbn [Api.read_detail].
    rewrite Hsome. unfold Api.new_Error. by rewrite Hto.
  - intros members. cbn [Api.ToString]. split.
    + by intros [v ->].
    + by intros ->.
Qed.

(** X14: the shape of the requests: every method addresses a URL that starts
    with the base URL, which is never empty (an unset or empty build variable
    gives the local default); [createUser] and [getProfessorRecommendations]
    are POSTs with a body and the JSON content type, the other five are GETs
    without body and without headers. *)
Theorem request_shape (c : Api.Call) :
  perform c = send (request_of c)
  ∧ startsWith (Api.url (request_of c)) API_BASE_URL = true
  ∧ API_BASE_URL ≠ []
  ∧ (REACT_APP_API_URL = None ∨ REACT_APP_API_URL = Some [] →
     API_BASE_URL = js "http://127.0.0.1:8000")
  ∧ match c with
    | Api.CreateUser _ | Api.GetProfessorRecommendations _ =>
        Api.method (request_of c) = js "POST"
        ∧ is_Some (Api.body (request_of c))
        ∧ Api.headers (request_of c) = [(js "Content-Type", js "application/json")]
    | _ =>
        Api.method (request_of c) = js "GET"
        ∧ Api.body (request_of c) = None
        ∧ Api.headers (request_of c) = []
    end.
Proof.
  split; [apply perform_request_of|].
  split; [destruct c; apply startsWith_app|].
  split; [apply API_BASE_URL_truthy|].
  split; [by intros [-> | ->]|].
  destruct c; simpl; eauto.
Qed.

(** X15: the query of [searchProfessors]: a parameter is sent exactly when it
    is given and not empty, with its value unchanged, under its own key, and
    the parameters come in the order research_area, location, name. *)
Theorem search_query_parameters (params : Api.SearchParams) :
  Api.url (request_of (Api.SearchProfessors params))
  = API_BASE_URL ++ js "/professors/search?"
    ++ URLSearchParams_toString (ApiRequests.searchParams params)
  ∧ sublist (ApiRequests.searchParams params).*1
            [js "research_area"; js "location"; js "name"]
  ∧ ∀ key value,
      (key, value) ∈ ApiRequests.searchParams params
      ↔ value ≠ []
        ∧ ((key = js "research_area" ∧ Api.research_area params = Some value)
           ∨ (key = js "location" ∧ Api.search_location params = Some value)
           ∨ (key = js "name" ∧ Api.search_name params = Some value)).
Proof.
  split; [reflexivity|].
  unfold ApiRequests.searchParams, Api.truthy_opt.
  destruct params as [[[|a1 a]|] [[|b1 b]|] [[|n1 n]|]]; simpl;
    (split; [repeat (first [apply sublist_skip | apply sublist_cons | apply sublist_nil])|]).
  all: intros key value; rewrite ?elem_of_cons, elem_of_nil; split;
    [ intros H; repeat destruct H as [H | H]; try done;
      injection H as -> ->; (split; [done | tauto])
    | intros [Hne H]; repeat destruct H as [H | H]; destruct H as [-> H];
      try done; injection H as <-; try done; tauto ].
Qed.

End ApiClientMore.

Lemma success_passes_body_through_witness :
  Api.perform None (SampleForm.answering SampleForm.ok_with_detail) (λ _, [])
    (λ _, []) [] [] Api.HealthCheck
  = Fulfilled (Api.JObject [(js "detail", Api.JString (js "fine"))]).
Proof.
  apply (success_passes_body_through None
           (SampleForm.answering SampleForm.ok_with_detail) (λ _, []) (λ _, []) [] []
           Api.HealthCheck SampleForm.ok_with_detail).
  - reflexivity.
  - simpl. lia.
Defined.

Lemma error_without_detail_witness :
  Api.perform None (SampleForm.answering SampleForm.empty_error) (λ _, [])
    (λ _, []) [] [] (Api.GetUser (js "7"))
  = Rejected (ErrorInstance [])
  ∧ Api.perform None (SampleForm.answering SampleForm.validation_error) (λ _, [])
      (λ _, []) [] [] (Api.CreateUser Sample.ann)
    = Rejected (ErrorInstance (js "[object Object]"))
  ∧ Api.perform None (SampleForm.answering SampleForm.unprintable_error) (λ _, [])
      (λ _, []) (js "null read") (js "no primitive") Api.GetResearchAreas
    = Rejected (ErrorInstance (js "no primitive")).
Proof.
  split; [|split].
  - apply (proj1 (error_without_detail None
                    (SampleForm.answering SampleForm.empty_error) (λ _, [])
                    (λ _, []) [] [] (Api.GetUser (js "7")) SampleForm.empty_error
                    eq_refl ltac:(simpl; lia)) [] eq_refl eq_refl).
  - apply (proj1 (proj2 (proj2 (proj2 (error_without_detail None
                    (SampleForm.answering SampleForm.validation_error) (λ _, [])
                    (λ _, []) [] [] (Api.CreateUser Sample.ann)
                    SampleForm.validation_error
                    eq_refl ltac:(simpl; lia)))))
             _ _ _ eq_refl eq_refl eq_refl).
  - apply (proj1 (proj2 (proj2 (proj2 (proj2 (error_without_detail None
                    (SampleForm.answering SampleForm.unprintable_error) (λ _, [])
                    (λ _, []) (js "null read") (js "no primitive")
                    Api.GetResearchAreas SampleForm.unprintable_error
                    eq_refl ltac:(simpl; lia))))))
             _ _ eq_refl eq_refl eq_refl).
Defined.

(** * Further properties of the display and of the orchestrator *)

(** X17: which of its four screens [ProfessorDisplay] shows: loading wins over
    everything, then a non-empty error wins over the professors; an absent or
    empty error falls through to the professors, one card each; the spinner
    has no button, every other screen binds its button to [onBack]. *)
Theorem display_precedence (H : Type) (props : Display.Props H) :
  (Display.loading H props = true → Display.ProfessorDisplay props = Display.LoadingState)
  ∧ (Display.loading H props = false →
     ∀ message, Display.error H props = Some message → message ≠ [] →
                Display.ProfessorDisplay props
                = Display.ErrorState message (Display.onBack H props))
  ∧ (Display.loading H props = false →
     Display.error H props = None ∨ Display.error H props = Some [] →
     Display.cards_of (Display.ProfessorDisplay props)
     = Display.render_card <$> Display.professors H props
     ∧ (Display.professors H props = []
        ↔ Display.ProfessorDisplay props = Display.NoResults (Display.onBack H props)))
  ∧ Display.button_of (Display.ProfessorDisplay props)
    = if Display.loading H props then None else Display.onBack H props.
Proof.
  unfold Display.ProfessorDisplay.
  destruct props as [ps [|] err back]; simpl.
  { repeat split; done. }
  split; [done|]. split; [|split].
  - intros _ message -> Hne. simpl. by destruct message.
  - by intros _ [-> | ->]; simpl; destruct ps; simpl.
  - destruct err as [[|a m]|]; simpl; try done; by destruct ps.
Qed.

Lemma when_truthy_eq {A : Type} (value : option jsstring) (element : jsstring → A)
  (v : jsstring) :
  value = Some v → v ≠ [] → Display.when_truthy value element = Some (element v).
Proof. intros -> Hv. unfold Display.when_truthy. by destruct v. Qed.

Lemma when_truthy_is_Some {A : Type} (value : option jsstring)
  (element : jsstring → A) :
  is_Some (Display.when_truthy value element) ↔ ∃ v, value = Some v ∧ v ≠ [].
Proof.
  unfold Display.when_truthy. destruct value as [[|a v]|]; simpl; split.
  - by intros [? ?].
  - by intros (? & [= <-] & ?).
  - intros _. by exists (a :: v).
  - eauto.
  - by intros [? ?].
  - by intros (? & ? & ?).
Qed.

(** X18: the contact part of a card is consistent: the "Contact Professor"
    action is offered exactly when the e-mail link is shown, which is exactly
    when the professor has a non-empty e-mail address, and both point to that
    address; likewise "View Profile" and the website link. *)
Theorem card_contact_consistent (professor : ProfessorInfo) :
  (is_Some (Display.contact_action (Display.render_card professor))
   ↔ is_Some (Display.email_link (Display.render_card professor)))
  ∧ (is_Some (Display.email_link (Display.render_card professor))
     ↔ ∃ e, email professor = Some e ∧ e ≠ [])
  ∧ (∀ e, email professor = Some e → e ≠ [] →
          Display.email_link (Display.render_card professor)
          = Some (js "mailto:" ++ e, e)
          ∧ Display.contact_action (Display.render_card professor)
            = Some (js "mailto:" ++ e ++ js "?subject=Research Opportunity Inquiry"))
  ∧ Display.profile_action (Display.render_card professor)
    = Display.website_link (Display.render_card professor)
  ∧ (is_Some (Display.website_link (Display.render_card professor))
     ↔ ∃ w, personal_website professor = Some w ∧ w ≠ []).
Proof.
  unfold Display.render_card.
  cbn [Display.contact_action Display.email_link Display.profile_action
       Display.website_link].
  split; [by rewrite !when_truthy_is_Some|].
  split; [apply when_truthy_is_Some|].
  split; [|split; [done | apply when_truthy_is_Some]].
  intros e He Hne. by rewrite !(when_truthy_eq _ _ e He Hne).
Qed.

(** *** Sessions *)


Lemma steps_reachable (es : list App.Event) :
  ∀ p p', App.reachable p → App.steps p es = Some p' → App.reachable p'.
Proof.
  induction es as [|e es IH]; intros p p' Hp Hsteps; simpl in Hsteps.
  - by injection Hsteps as <-.
  - destruct (App.step p e) as [q|] eqn:Hstep; [|done].
    apply (IH q p'); [|done]. by apply (App.reachable_step p e q).
Qed.


(** X20: a session never gets stuck and never offers two kinds of event at
    once: the form accepts a submission and nothing else, the loading screen
    only waits for its request to settle, the results and error screens only
    offer their button. *)
Theorem enabled_events (p : App.Page) :
  App.reachable p →
  (∀ u, is_Some (App.step p (App.Submit u))
        ↔ App.state (App.cells p) = App.AppState.form)
  ∧ (∀ o, is_Some (App.step p (App.Settle o))
          ↔ App.state (App.cells p) = App.AppState.loading)
  ∧ (is_Some (App.step p App.ClickButton)
     ↔ App.state (App.cells p) = App.AppState.results
       ∨ App.state (App.cells p) = App.AppState.error).
Proof.
  intros Hok%page_ok_reachable. unfold Spec.page_ok in Hok.
  unfold App.step. rewrite screen_button_render. unfold App.render.
  destruct (App.state (App.cells p)).
  - rewrite Hok. repeat split; try done; try (by intros [? ?]); try (by intros [|]).
  - destruct Hok as (u & -> & Hu).
    repeat split; try done; try (by intros [? ?]); try (by intros [|]).
  - rewrite Hok. repeat split; try done; try (by intros [? ?]); eauto.
  - destruct Hok as [-> _].
    repeat split; try done; try (by intros [? ?]); eauto.
Qed.

Lemma enabled_events_witness :
  (∀ u, is_Some (App.step Sample.retried (App.Submit u))
        ↔ App.state (App.cells Sample.retried) = App.AppState.form)
  ∧ (∀ o, is_Some (App.step Sample.retried (App.Settle o))
          ↔ App.state (App.cells Sample.retried) = App.AppState.loading)
  ∧ (is_Some (App.step Sample.retried App.ClickButton)
     ↔ App.state (App.cells Sample.retried) = App.AppState.results
       ∨ App.state (App.cells Sample.retried) = App.AppState.error).
Proof.
  apply (enabled_events Sample.retried).
  apply (App.reachable_step Sample.failed App.ClickButton); [|reflexivity].
  apply (App.reachable_step
           {| App.cells := fst (App.handleUserSubmit Sample.ann App.initial);
              App.in_flight := [App.getProfessorRecommendations Sample.ann] |}
           (App.Settle (Rejected (ErrorInstance (js "bad input")))));
    [|reflexivity].
  apply (App.reachable_step App.start (App.Submit Sample.ann));
    [apply App.reachable_start | reflexivity].
Defined.

Lemma no_stale_data_step (p p' : App.Page) (e : App.Event) :
  Spec.page_ok p →
  (App.state (App.cells p) ≠ App.AppState.results → App.professors (App.cells p) = []) →
  (App.state (App.cells p) ≠ App.AppState.error → App.error (App.cells p) = []) →
  App.step p e = Some p' →
  (App.state (App.cells p') ≠ App.AppState.results → App.professors (App.cells p') = [])
  ∧ (App.state (App.cells p') ≠ App.AppState.error → App.error (App.cells p') = []).
Proof.
  unfold Spec.page_ok. intros Hok Hprof Herr Hstep.
  destruct e as [userData | o | ]; simpl in Hstep.
  - unfold App.render in Hstep.
    destruct (App.state (App.cells p)); try done.
    injection Hstep as <-. simpl. split; [intros _; by apply Hprof | done].
  - destruct (App.in_flight p) as [|r rest] eqn:Hq; [done|].
    injection Hstep as <-.
    destruct (App.state (App.cells p)); try done; [|by destruct Hok].
    destruct o as [response | err]; simpl.
    + destruct (recommendations response); simpl;
        (split; [done | intros _; by apply Herr]).
    + split; [intros _; by apply Hprof | done].
  - rewrite screen_button_render in Hstep.
    destruct (App.state (App.cells p)); try done; injection Hstep as <-.
    + done.
    + destruct Hok as [_ [u Hu]]. unfold App.handleRetry. rewrite Hu. simpl.
      split; [intros _; by apply Hprof | done].
Qed.

(** X21: no stale data behind a screen: throughout a session the list of
    professors is empty unless the results are on screen, and the error
    message is empty unless the error screen is. *)
Theorem no_stale_data (p : App.Page) :
  App.reachable p →
  (App.state (App.cells p) ≠ App.AppState.results → App.professors (App.cells p) = [])
  ∧ (App.state (App.cells p) ≠ App.AppState.error → App.error (App.cells p) = []).
Proof.
  induction 1 as [|p e p' Hreach [IHp IHe] Hstep]; [done|].
  by apply (no_stale_data_step p p' e); [apply page_ok_reachable| | |].
Qed.

Lemma no_stale_data_witness :
  (App.state (App.cells SampleForm.session_end) ≠ App.AppState.results →
   App.professors (App.cells SampleForm.session_end) = [])
  ∧ (App.state (App.cells SampleForm.session_end) ≠ App.AppState.error →
     App.error (App.cells SampleForm.session_end) = []).
Proof.
  apply (no_stale_data SampleForm.session_end).
  apply (steps_reachable SampleForm.session App.start SampleForm.session_end);
    [apply App.reachable_start | reflexivity].
Defined.

(** X22: what the user sees after a failed request: the error screen with
    the message of the thrown [Error] (a fixed message for a thrown value that
    is no [Error]) and the retry button; but when that message is empty the
    "no results" screen comes up instead, its button bound to retry. *)
Theorem failed_request_screen (err : Thrown) (c : App.Cells) :
  App.error (App.handleUserSubmit_settled (Rejected err) c) = Trace.shown_message err
  ∧ (Trace.shown_message err ≠ [] →
     App.render (App.handleUserSubmit_settled (Rejected err) c)
     = App.ProfessorDisplay
         (Display.ErrorState (Trace.shown_message err) (Some App.HandleRetry)))
  ∧ (Trace.shown_message err = [] →
     App.render (App.handleUserSubmit_settled (Rejected err) c)
     = App.ProfessorDisplay (Display.NoResults (Some App.HandleRetry)))
  ∧ Trace.shown_message NotAnError = js "An unexpected error occurred".
Proof.
  split; [by destruct err|].
  unfold App.render, Display.ProfessorDisplay, Display.when_truthy.
  cbn [App.handleUserSubmit_settled App.state App.setState App.setError App.error
       Display.loading Display.error Display.professors Display.onBack].
  fold (Trace.shown_message err).
  split; [|split; [|done]].
  - intros Hne. by destruct (Trace.shown_message err).
  - by intros ->.
Qed.

Lemma step_userInfo (p p' : App.Page) (e : App.Event) :
  App.step p e = Some p' →
  App.userInfo (App.cells p') = Trace.last_submit (App.userInfo (App.cells p)) [e].
Proof.
  intros Hstep. destruct e as [userData | o | ]; simpl in Hstep.
  - destruct (App.render (App.cells p)); [|done]. by injection Hstep as <-.
  - destruct (App.in_flight p); [done|]. injection Hstep as <-.
    destruct o as [response | err]; simpl; [|done].
    by destruct (recommendations response).
  - rewrite screen_button_render in Hstep.
    destruct (App.state (App.cells p)); try done; injection Hstep as <-; [done|].
    unfold App.after, App.handleRetry.
    destruct (App.userInfo (App.cells p)) eqn:Hu; simpl; by rewrite ?Hu.
Qed.

Lemma last_submit_cons (u : option UserInfo) (e : App.Event) (es : list App.Event) :
  Trace.last_submit u (e :: es) = Trace.last_submit (Trace.last_submit u [e]) es.
Proof. by destruct e. Qed.

Lemma steps_userInfo (es : list App.Event) :
  ∀ p p', App.steps p es = Some p' →
          App.userInfo (App.cells p')
          = Trace.last_submit (App.userInfo (App.cells p)) es.
Proof.
  induction es as [|e es IH]; intros p p' Hsteps; simpl in Hsteps.
  - by injection Hsteps as <-.
  - destruct (App.step p e) as [q|] eqn:Hstep; [|done].
    rewrite last_submit_cons, <- (step_userInfo p q e Hstep). by apply IH.
Qed.

(** X23: the stored [userInfo] is the data of the latest submission: after
    any run of events it is the argument of the last submit among them (none
    before the first one); settling, going back and retrying leave it
    alone. *)
Theorem userInfo_is_last_submission (es : list App.Event) (p : App.Page) :
  App.steps App.start es = Some p →
  App.userInfo (App.cells p) = Trace.last_submit None es.
Proof. apply (steps_userInfo es App.start p). Qed.

Lemma userInfo_is_last_submission_witness :
  App.userInfo (App.cells SampleForm.session_end)
  = Trace.last_submit None SampleForm.session.
Proof.
  apply (userInfo_is_last_submission SampleForm.session SampleForm.session_end).
  reflexivity.
Defined.
